(** * valorant.py: the client of valorant/valorant.py and the chat tables of
    valostore/constants.py, as a shallow embedding.

    Python values that travel through the client are modelled by [Json]
    (what [response.json()] can return), Python exceptions by [PyExn], and
    the methods of class [Valorant] by programs over the effects they
    perform (calls on the [Auth] object, HTTP requests, [print]).
    [get_border_level], which works on the results of two of these
    methods, and the stub [get_xmpp_socket] follow in module [Border]. *)

From Stdlib Require Import ZArith NArith String Ascii List Lia.
From stdpp Require Import base strings pretty gmap list.

Set Warnings "-register-all".

Local Open Scope string_scope.
Local Open Scope Z_scope.

(** ** Python values *)

Module Py.

(** The values [json.loads] produces.  A float is carried by the text
    Python prints for it, which is all the client ever does with one; a
    dict is carried by its items, in order, under distinct keys. *)
Inductive Json : Type :=
| JNull
| JBool (b : bool)
| JInt (z : Z)
| JFloat (text : string)
| JStr (s : string)
| JList (l : list Json)
| JDict (kvs : list (string * Json)).

(** Exceptions the client code can raise or let through. *)
Inductive PyExn : Type :=
| KeyError (key : Json)
| TypeError
| JSONDecodeError
| OtherError (name : string).

Inductive Outcome (A : Type) : Type :=
| Returns (a : A)
| Raises (e : PyExn).
Arguments Returns {A} a.
Arguments Raises {A} e.

(** [d[k]] on the ordered items of a dict. *)
Fixpoint dict_get {V : Type} (k : string) (kvs : list (string * V)) : option V :=
  match kvs with
  | [] => None
  | (k', v) :: rest => if String.eqb k k' then Some v else dict_get k rest
  end.

(** [v[k]] for a string key [k]: a dict is searched, a list or a string
    refuses a string index, and the other values cannot be subscripted. *)
Definition subscript (v : Json) (k : string) : Outcome Json :=
  match v with
  | JDict kvs =>
      match dict_get k kvs with
      | Some x => Returns x
      | None => Raises (KeyError (JStr k))
      end
  | _ => Raises TypeError
  end.

(** Truth value of an optional string argument ([None] and [""] are falsy). *)
Definition truthy (s : option string) : bool :=
  match s with
  | None => false
  | Some s => negb (String.eqb s "")
  end.

(** *** [repr] and [str] *)

Definition squote : ascii := "039"%char.
Definition dquote : ascii := "034"%char.
Definition backslash : ascii := "092"%char.

Definition hex_digit (n : N) : ascii :=
  match String.get (N.to_nat n) "0123456789abcdef" with
  | Some c => c
  | None => "0"%char
  end.

Definition hex2 (n : N) : string :=
  String (hex_digit (n / 16)%N) (String (hex_digit (n mod 16)%N) "").

Fixpoint contains (c : ascii) (s : string) : bool :=
  match s with
  | EmptyString => false
  | String c' s' => Ascii.eqb c c' || contains c s'
  end.

(** The quote [repr] picks: a double quote only when the text has a single
    quote and no double quote. *)
Definition repr_quote (s : string) : ascii :=
  if contains squote s && negb (contains dquote s) then dquote else squote.

(** One character of [repr] output.  [bytes_mode] is [repr] of a [bytes]
    object, where every byte from 128 up is escaped; in a [str] such bytes
    belong to the UTF-8 form of a printable character and are kept. *)
Definition repr_char (bytes_mode : bool) (q c : ascii) : string :=
  let n := N_of_ascii c in
  if Ascii.eqb c backslash then String backslash (String backslash "")
  else if Ascii.eqb c q then String backslash (String q "")
  else if (n =? 9)%N then String backslash "t"
  else if (n =? 10)%N then String backslash "n"
  else if (n =? 13)%N then String backslash "r"
  else if (n <? 32)%N || (n =? 127)%N || (bytes_mode && (127 <? n)%N)
       then String backslash ("x" +:+ hex2 n)
  else String c "".

Fixpoint repr_body (bytes_mode : bool) (q : ascii) (s : string) : string :=
  match s with
  | EmptyString => ""
  | String c s' => repr_char bytes_mode q c +:+ repr_body bytes_mode q s'
  end.

Definition repr_str (s : string) : string :=
  let q := repr_quote s in
  String q (repr_body false q s +:+ String q "").

Definition repr_bytes (b : string) : string :=
  let q := repr_quote b in
  "b" +:+ String q (repr_body true q b +:+ String q "").

Fixpoint join (sep : string) (l : list string) : string :=
  match l with
  | [] => ""
  | [x] => x
  | x :: rest => x +:+ sep +:+ join sep rest
  end.

Definition str_int (z : Z) : string := pretty z.

Fixpoint repr (v : Json) : string :=
  match v with
  | JNull => "None"
  | JBool true => "True"
  | JBool false => "False"
  | JInt z => str_int z
  | JFloat t => t
  | JStr s => repr_str s
  | JList l => "[" +:+ join ", " (map repr l) +:+ "]"
  | JDict kvs =>
      "{" +:+ join ", " (map (fun kv => repr_str (fst kv) +:+ ": " +:+ repr (snd kv)) kvs)
          +:+ "}"
  end.

(** [str(v)], which is what an f-string field [{v}] inserts. *)
Definition str (v : Json) : string :=
  match v with
  | JStr s => s
  | _ => repr v
  end.

(** An optional argument inside an f-string: [None] prints as its name. *)
Definition str_opt {A : Type} (f : A -> string) (o : option A) : string :=
  match o with
  | Some a => f a
  | None => "None"
  end.

(** *** [json.dumps] with its default separators and [ensure_ascii] *)

Definition hex4 (n : N) : string := hex2 (n / 256)%N +:+ hex2 (n mod 256)%N.

Definition codes (s : string) : list N := map N_of_ascii (list_ascii_of_string s).

(** Code points of a UTF-8 byte sequence. *)
Fixpoint utf8_decode (l : list N) : list N :=
  match l with
  | [] => []
  | a :: r =>
      if (a <? 192)%N then a :: utf8_decode r
      else match r with
      | [] => [a]
      | b :: r1 =>
          if (a <? 224)%N then ((a mod 32) * 64 + b mod 64)%N :: utf8_decode r1
          else match r1 with
          | [] => [a; b]
          | c :: r2 =>
              if (a <? 240)%N
              then ((a mod 16) * 4096 + (b mod 64) * 64 + c mod 64)%N :: utf8_decode r2
              else match r2 with
              | [] => [a; b; c]
              | d :: r3 =>
                  ((a mod 8) * 262144 + (b mod 64) * 4096 + (c mod 64) * 64 + d mod 64)%N
                    :: utf8_decode r3
              end
          end
      end
  end.

Definition u_escape (n : N) : string := String backslash ("u" +:+ hex4 n).

Definition dumps_char (n : N) : string :=
  if (n =? 34)%N then String backslash (String dquote "")
  else if (n =? 92)%N then String backslash (String backslash "")
  else if (n =? 8)%N then String backslash "b"
  else if (n =? 12)%N then String backslash "f"
  else if (n =? 10)%N then String backslash "n"
  else if (n =? 13)%N then String backslash "r"
  else if (n =? 9)%N then String backslash "t"
  else if (32 <=? n)%N && (n <=? 126)%N then String (ascii_of_N n) ""
  else if (n <? 65536)%N then u_escape n
  else u_escape (55296 + (n - 65536) / 1024)%N +:+ u_escape (56320 + (n - 65536) mod 1024)%N.

Definition dumps_str (s : string) : string :=
  String dquote (join "" (map dumps_char (utf8_decode (codes s))) +:+ String dquote "").

Fixpoint json_dumps (v : Json) : string :=
  match v with
  | JNull => "null"
  | JBool true => "true"
  | JBool false => "false"
  | JInt z => str_int z
  | JFloat t => t
  | JStr s => dumps_str s
  | JList l => "[" +:+ join ", " (map json_dumps l) +:+ "]"
  | JDict kvs =>
      "{" +:+ join ", " (map (fun kv => dumps_str (fst kv) +:+ ": " +:+ json_dumps (snd kv)) kvs)
          +:+ "}"
  end.

(** *** [base64.b64encode] *)

Definition b64_alphabet : string :=
  "ABCDEFGHIJKLMNOPQRSTUVWXYZabcdefghijklmnopqrstuvwxyz0123456789+/".

Definition b64_char (n : N) : ascii :=
  match String.get (N.to_nat (n mod 64)%N) b64_alphabet with
  | Some c => c
  | None => "="%char
  end.

Fixpoint b64_groups (l : list N) : list ascii :=
  match l with
  | [] => []
  | [a] =>
      let n := (a * 65536)%N in
      [b64_char (n / 262144); b64_char (n / 4096); "="%char; "="%char]
  | [a; b] =>
      let n := (a * 65536 + b * 256)%N in
      [b64_char (n / 262144); b64_char (n / 4096); b64_char (n / 64); "="%char]
  | a :: b :: c :: rest =>
      let n := (a * 65536 + b * 256 + c)%N in
      b64_char (n / 262144) :: b64_char (n / 4096) :: b64_char (n / 64) :: b64_char n
        :: b64_groups rest
  end.

Definition b64encode (b : string) : string :=
  string_of_list_ascii (b64_groups (codes b)).

(** [s.encode("utf-8")]: a [str] is kept here by its UTF-8 bytes. *)
Definition encode_utf8 (s : string) : string := s.

End Py.

(** ** HTTP requests and the effects of the client *)

Module Http.
Import Py.

Inductive Verb : Type := GET | POST | PUT.

(** Who sends: the client's [requests.Session] (which adds its cookies and
    default headers) or the [requests] module itself. *)
Inductive Sender : Type := ViaSession | ViaRequests.

(** A header value as the code hands it over: a [str], a [bytes], or
    whatever else a decoded response held. *)
Inductive HeaderVal : Type :=
| HStr (s : string)
| HBytes (b : string)
| HOther (v : Json).

Definition header_value (v : Json) : HeaderVal :=
  match v with
  | JStr s => HStr s
  | _ => HOther v
  end.

(** The arguments of one [get]/[post]/[put] call. *)
Record Request : Type := mkRequest {
  sender : Sender;
  verb : Verb;
  url : string;
  headers : list (string * HeaderVal);
  json_arg : option Json;
  timeout : option Z
}.

(** A response, by what the client can ask of it: its status code and what
    [.json()] gives ([None] when the body does not decode and the decoder
    raises). *)
Record Response : Type := mkResponse {
  status_code : Z;
  json : option Json
}.

(** Modelled from the spec: the getters of class [Auth] of
    valorant/classes.py, which is not among the sources.  The spec's token
    set holds strings, so [get_access_token], [get_id_token] and
    [get_entitlement_token] each answer with a [str]. *)
Inductive Token : Type := AccessToken | IdToken | EntitlementToken.

(** Effects without a result. *)
Inductive Action : Type :=
| NewAuth (username password : string)
| SetAuthCookies
| UpdateSessionHeaders (h : list (string * string))
| PrintOut (text : string).

(** A method body: a tree of effects, each with what follows its answer. *)
Inductive Prog (A : Type) : Type :=
| Ret (a : A)
| Raise (e : PyExn)
| Act (a : Action) (k : Prog A)
| GetToken (t : Token) (k : string -> Prog A)
| Send (req : Request) (k : Response -> Prog A).
Arguments Ret {A} a.
Arguments Raise {A} e.
Arguments Act {A} a k.
Arguments GetToken {A} t k.
Arguments Send {A} req k.

Fixpoint bind {A B : Type} (p : Prog A) (f : A -> Prog B) : Prog B :=
  match p with
  | Ret a => f a
  | Raise e => Raise e
  | Act a k => Act a (bind k f)
  | GetToken t k => GetToken t (fun s => bind (k s) f)
  | Send req k => Send req (fun r => bind (k r) f)
  end.

#[global] Instance prog_ret : MRet Prog := @Ret.
#[global] Instance prog_bind : MBind Prog := fun A B f p => bind p f.

Definition lift {A : Type} (o : Outcome A) : Prog A :=
  match o with
  | Returns a => Ret a
  | Raises e => Raise e
  end.

Definition act (a : Action) : Prog unit := Act a (Ret tt).
Definition get_token (t : Token) : Prog string := GetToken t Ret.
Definition send (req : Request) : Prog Response := Send req Ret.

(** [response.json()] *)
Definition response_json (r : Response) : Prog Json :=
  match json r with
  | Some j => Ret j
  | None => Raise JSONDecodeError
  end.

(** *** Running a program against an environment *)

(** An effect together with the answer it got. *)
Inductive Event : Type :=
| EvAct (a : Action) (answer : option PyExn)
| EvToken (t : Token) (answer : Outcome string)
| EvSend (req : Request) (answer : Outcome Response).

(** What answers the effects: the [Auth] object, the network and the
    console, over a state [W] of their own.  Each may raise. *)
Record Env (W : Type) : Type := mkEnv {
  on_action : Action -> W -> option PyExn * W;
  on_token : Token -> W -> Outcome string * W;
  on_send : Request -> W -> Outcome Response * W
}.
Arguments mkEnv {W} _ _ _.
Arguments on_action {W} e a w.
Arguments on_token {W} e t w.
Arguments on_send {W} e req w.

Definition Run (W A : Type) : Type := (Outcome A * W * list Event)%type.

Definition logged {W A : Type} (ev : Event) (r : Run W A) : Run W A :=
  (r.1.1, r.1.2, ev :: r.2).

(** The outcome, the final state and the effects performed, in order. *)
Fixpoint run {W A : Type} (E : Env W) (p : Prog A) (w : W) : Run W A :=
  match p with
  | Ret a => (Returns a, w, [])
  | Raise e => (Raises e, w, [])
  | Act a k =>
      match on_action E a w with
      | (Some e, w') => (Raises e, w', [EvAct a (Some e)])
      | (None, w') => logged (EvAct a None) (run E k w')
      end
  | GetToken t k =>
      match on_token E t w with
      | (Raises e, w') => (Raises e, w', [EvToken t (Raises e)])
      | (Returns s, w') => logged (EvToken t (Returns s)) (run E (k s) w')
      end
  | Send req k =>
      match on_send E req w with
      | (Raises e, w') => (Raises e, w', [EvSend req (Raises e)])
      | (Returns r, w') => logged (EvSend req (Returns r)) (run E (k r) w')
      end
  end.

Definition outcome {W A : Type} (r : Run W A) : Outcome A := r.1.1.
Definition trace {W A : Type} (r : Run W A) : list Event := r.2.

Definition sent (tr : list Event) : list Request :=
  omap (fun ev => match ev with EvSend req _ => Some req | _ => None end) tr.

(** *** Properties of every run, read off the program

    A monitor watches the effects of a run: [m_ok s ev] says that event
    [ev] is acceptable in monitor state [s], and [m_step] moves on. *)
Record Monitor (S : Type) : Type := mkMonitor {
  m_ok : S -> Event -> Prop;
  m_step : S -> Event -> S
}.
Arguments mkMonitor {S} _ _.
Arguments m_ok {S} m s ev.
Arguments m_step {S} m s ev.

Fixpoint Accepts {S : Type} (M : Monitor S) (s : S) (tr : list Event) : Prop :=
  match tr with
  | [] => True
  | ev :: tr' => m_ok M s ev /\ Accepts M (m_step M s ev) tr'
  end.

(** The same on the program: whatever the answers, every effect on every
    path is acceptable. *)
Fixpoint Obeys {S A : Type} (M : Monitor S) (s : S) (p : Prog A) : Prop :=
  match p with
  | Ret _ | Raise _ => True
  | Act a k =>
      (forall o, m_ok M s (EvAct a o)) /\ Obeys M (m_step M s (EvAct a None)) k
  | GetToken t k =>
      (forall o, m_ok M s (EvToken t o))
      /\ forall v, Obeys M (m_step M s (EvToken t (Returns v))) (k v)
  | Send req k =>
      (forall o, m_ok M s (EvSend req o))
      /\ forall r, Obeys M (m_step M s (EvSend req (Returns r))) (k r)
  end.


(** A program that cannot return before it has sent a request, and whose
    last request before it returns satisfies [Q]; [sure] holds once such a
    request is out. *)
Fixpoint Delivers {A : Type} (Q : Request -> Prop) (sure : Prop) (p : Prog A) : Prop :=
  match p with
  | Ret _ => sure
  | Raise _ => True
  | Act _ k => Delivers Q sure k
  | GetToken _ k => forall v, Delivers Q sure (k v)
  | Send req k => forall r, Delivers Q (Q req) (k r)
  end.

(** The last request of a run that returned satisfies [Q]. *)
Definition delivered {W A : Type} (Q : Request -> Prop) (r : Run W A) : Prop :=
  match outcome r with
  | Returns _ => exists req, last (sent (trace r)) = Some req /\ Q req
  | Raises _ => True
  end.





End Http.

(** ** valorant/constants.py *)

Module Constants.

(** Modelled from the spec: class [Region] of valorant/constants.py, which
    is not among the sources.  The spec gives it a region code and a shard
    code, and the client reads exactly the attributes [region] and [shard]. *)
Record Region : Type := mkRegion {
  region : string;
  shard : string
}.

End Constants.

(** ** valorant/valorant.py: class Valorant *)

Module Client.
Import Py Http.

(** The attributes [__init__] leaves on the object.  The session and the
    [Auth] object live in the environment that answers the effects. *)
Record Valorant : Type := mkValorant {
  region : Constants.Region;
  pd_server : string;
  glz_server : string;
  user_info : Json
}.

Definition VERSION_URL : string := "https://valorant-api.com/v1/version".
Definition GEO_URL : string := "https://riot-geo.pas.si.riotgames.com/pas/v1/product/valorant".

(** Lines 32 and 33 of [__init__]. *)
Definition pd_server_of (r : Constants.Region) : string :=
  "https://pd." +:+ Constants.region r +:+ ".a.pvp.net".

Definition glz_server_of (r : Constants.Region) : string :=
  "https://glz-" +:+ Constants.region r +:+ "-1." +:+ Constants.shard r +:+ ".a.pvp.net".

Definition platform : Json :=
  JDict [("platformType", JStr "PC");
         ("platformOS", JStr "Windows");
         ("platformOSVersion", JStr "10.0.19042.1.256.64bit");
         ("platformChipset", JStr "Unknown")].

Definition client_platform (self : Valorant) : string :=
  b64encode (encode_utf8 (json_dumps platform)).

Definition client_version (self : Valorant) : Prog Json :=
  r ← send (mkRequest ViaRequests GET VERSION_URL [] None (Some 30));
  j ← response_json r;
  d ← lift (subscript j "data");
  lift (subscript d "riotClientVersion").

(** An argument [x: str | None = None] that falls back on
    [self.user_info["sub"]]. *)
Definition or_sub (self : Valorant) (player_id : option string) : Prog Json :=
  match player_id with
  | None => lift (subscript (user_info self) "sub")
  | Some s => Ret (JStr s)
  end.

Section Methods.

(** The names [valorant.py] imports from valorant/constants.py, a module
    that is not among the sources: the region table and the URL and path
    constants. *)
Variable regions : gmap string Constants.Region.
Variable USERINFO_URL : string.
Variables API_CONTENT API_ACCOUNT_XP API_PERSONALIZATION API_MMR API_HISTORY : string.
Variables API_MATCHES API_LEADERBOARD API_PENALTIES API_CONFIG API_PRICES : string.
Variables API_STORE API_WALLET API_OWNED API_PREGAME_PLAYER API_PREGAME_MATCH : string.
Variables API_CURRENT_GAME_PLAYER API_CURRENT_GAME_MATCH API_ITEM_UPGRADES : string.
Variable API_CONTRACTS : string.

Definition get_user_info : Prog Json :=
  acc ← get_token AccessToken;
  r ← send (mkRequest ViaSession POST USERINFO_URL
        [("Content-Type", HStr "application/json");
         ("Authorization", HStr ("Bearer " +:+ acc))]
        (Some (JDict [])) None);
  response_json r.

(** [regions[code]]: the table has string keys, so a list or a dict cannot
    be hashed and any other value is simply absent. *)
Definition regions_lookup (code : Json) : Outcome Constants.Region :=
  match code with
  | JStr s =>
      match regions !! s with
      | Some r => Returns r
      | None => Raises (KeyError code)
      end
  | JList _ | JDict _ => Raises TypeError
  | _ => Raises (KeyError code)
  end.

Definition get_region : Prog Constants.Region :=
  acc ← get_token AccessToken;
  idt ← get_token IdToken;
  r ← send (mkRequest ViaSession PUT GEO_URL
        [("Content-Type", HStr "application/json");
         ("Authorization", HStr ("Bearer " +:+ acc))]
        (Some (JDict [("id_token", JStr idt)])) None);
  a ← response_json r;
  affinities ← lift (subscript a "affinities");
  live ← lift (subscript affinities "live");
  lift (regions_lookup live).

Definition init (username password : string) : Prog Valorant :=
  act (NewAuth username password);;
  r ← send (mkRequest ViaRequests GET VERSION_URL [] None None);
  j ← response_json r;
  d ← lift (subscript j "data");
  build ← lift (subscript d "riotClientBuild");
  act (UpdateSessionHeaders
        [("User-Agent", "RiotClient/" +:+ str build +:+ " riot-status (Windows;10;;Professional, x64)");
         ("Accept-Language", "en-US,en;q=0.9");
         ("Accept", "application/json, text/plain, */*")]);;
  act SetAuthCookies;;
  reg ← get_region;
  info ← get_user_info;
  Ret (mkValorant reg (pd_server_of reg) (glz_server_of reg) info).

Definition get_content (self : Valorant) : Prog Json :=
  let u := pd_server self +:+ API_CONTENT in
  ver ← client_version self;
  ent ← get_token EntitlementToken;
  acc ← get_token AccessToken;
  r ← send (mkRequest ViaSession GET u
        [("X-Riot-ClientPlatform", HStr (repr_bytes (client_platform self)));
         ("X-Riot-ClientVersion", HStr (str ver));
         ("X-Riot-Entitlements-JWT", HStr ent);
         ("Authorization", HStr ("Bearer " +:+ acc))]
        None None);
  response_json r.

Definition get_account_xp (self : Valorant) : Prog Json :=
  sub ← lift (subscript (user_info self) "sub");
  let u := pd_server self +:+ API_ACCOUNT_XP +:+ "/" +:+ str sub in
  ent ← get_token EntitlementToken;
  acc ← get_token AccessToken;
  r ← send (mkRequest ViaSession GET u
        [("X-Riot-Entitlements-JWT", HStr ent);
         ("Authorization", HStr ("Bearer " +:+ acc))]
        None None);
  response_json r.

Definition get_loadout (self : Valorant) : Prog Json :=
  sub ← lift (subscript (user_info self) "sub");
  let u := pd_server self +:+ API_PERSONALIZATION +:+ "/" +:+ str sub +:+ "/playerloadout" in
  ent ← get_token EntitlementToken;
  acc ← get_token AccessToken;
  r ← send (mkRequest ViaSession GET u
        [("X-Riot-Entitlements-JWT", HStr ent);
         ("Authorization", HStr ("Bearer " +:+ acc))]
        None None);
  response_json r.

Definition set_loadout (self : Valorant) (loadout : Json) : Prog unit :=
  sub ← lift (subscript (user_info self) "sub");
  let u := pd_server self +:+ API_PERSONALIZATION +:+ "/" +:+ str sub +:+ "/playerloadout" in
  ent ← get_token EntitlementToken;
  acc ← get_token AccessToken;
  r ← send (mkRequest ViaSession PUT u
        [("X-Riot-Entitlements-JWT", HStr ent);
         ("Authorization", HStr ("Bearer " +:+ acc))]
        (Some loadout) None);
  Ret tt.

Definition get_player_mmr (self : Valorant) (player_id : option string) : Prog Json :=
  player_id ← or_sub self player_id;
  let u := pd_server self +:+ API_MMR +:+ "/" +:+ str player_id in
  ver ← client_version self;
  ent ← get_token EntitlementToken;
  acc ← get_token AccessToken;
  r ← send (mkRequest ViaSession GET u
        [("X-Riot-ClientPlatform", HBytes (client_platform self));
         ("X-Riot-ClientVersion", header_value ver);
         ("X-Riot-Entitlements-JWT", HStr ent);
         ("Authorization", HStr ("Bearer " +:+ acc))]
        None None);
  response_json r.

Definition get_match_history (self : Valorant) (player_id : option string)
    (offset amount : option Z) : Prog Json :=
  player_id ← or_sub self player_id;
  let u := pd_server self +:+ API_HISTORY +:+ "/" +:+ str player_id
           +:+ "?startIndex=" +:+ str_opt str_int offset
           +:+ "&endIndex=" +:+ str_opt str_int amount in
  ent ← get_token EntitlementToken;
  acc ← get_token AccessToken;
  r ← send (mkRequest ViaSession GET u
        [("X-Riot-Entitlements-JWT", HStr ent);
         ("Authorization", HStr ("Bearer " +:+ acc))]
        None None);
  response_json r.

Definition get_match_details (self : Valorant) (match_id : string) : Prog Json :=
  let u := pd_server self +:+ API_MATCHES +:+ "/" +:+ match_id in
  ent ← get_token EntitlementToken;
  acc ← get_token AccessToken;
  r ← send (mkRequest ViaSession GET u
        [("X-Riot-Entitlements-JWT", HStr ent);
         ("Authorization", HStr ("Bearer " +:+ acc))]
        None None);
  response_json r.

(** The conditional expression takes the whole concatenation as its first
    branch: [(a + b) if username else ""]. *)
Definition leaderboard_url (self : Valorant) (season_id : string) (start amount : Z)
    (username : option string) : string :=
  if truthy username
  then (pd_server self +:+ API_LEADERBOARD +:+ "/" +:+ season_id
        +:+ "?startIndex=" +:+ str_int start +:+ "&size=" +:+ str_int amount)
       +:+ ("&query=" +:+ str_opt id username)
  else "".

Definition get_leaderboard (self : Valorant) (season_id : string) (start amount : Z)
    (username : option string) : Prog Json :=
  let u := leaderboard_url self season_id start amount username in
  ver ← client_version self;
  ent ← get_token EntitlementToken;
  acc ← get_token AccessToken;
  r ← send (mkRequest ViaSession GET u
        [("X-Riot-ClientVersion", header_value ver);
         ("X-Riot-Entitlements-JWT", HStr ent);
         ("Authorization", HStr ("Bearer " +:+ acc))]
        None None);
  response_json r.

Definition get_penalties (self : Valorant) : Prog Json :=
  let u := pd_server self +:+ API_PENALTIES in
  ent ← get_token EntitlementToken;
  acc ← get_token AccessToken;
  r ← send (mkRequest ViaSession GET u
        [("X-Riot-ClientPlatform", HBytes (client_platform self));
         ("X-Riot-Entitlements-JWT", HStr ent);
         ("Authorization", HStr ("Bearer " +:+ acc))]
        None None);
  response_json r.

Definition get_config (self : Valorant) : Prog Json :=
  let u := pd_server self +:+ API_CONFIG +:+ "/" +:+ Constants.region (region self) in
  ent ← get_token EntitlementToken;
  acc ← get_token AccessToken;
  r ← send (mkRequest ViaSession GET u
        [("X-Riot-Entitlements-JWT", HStr ent);
         ("Authorization", HStr ("Bearer " +:+ acc))]
        None None);
  response_json r.

Definition get_prices (self : Valorant) : Prog Json :=
  let u := pd_server self +:+ API_PRICES in
  ent ← get_token EntitlementToken;
  acc ← get_token AccessToken;
  r ← send (mkRequest ViaSession GET u
        [("X-Riot-Entitlements-JWT", HStr ent);
         ("Authorization", HStr ("Bearer " +:+ acc))]
        None None);
  response_json r.

Definition get_store (self : Valorant) : Prog Json :=
  sub ← lift (subscript (user_info self) "sub");
  let u := pd_server self +:+ API_STORE +:+ "/" +:+ str sub in
  acc ← get_token AccessToken;
  ent ← get_token EntitlementToken;
  ver ← client_version self;
  r ← send (mkRequest ViaRequests GET u
        [("Authorization", HStr ("Bearer " +:+ acc));
         ("X-Riot-Entitlements-JWT", HStr ent);
         ("X-Riot-ClientPlatform", HBytes (client_platform self));
         ("X-Riot-ClientVersion", header_value ver);
         ("Content-Type", HStr "application/json")]
        None None);
  response_json r.

Definition get_wallet (self : Valorant) : Prog Json :=
  sub ← lift (subscript (user_info self) "sub");
  let u := pd_server self +:+ API_WALLET +:+ "/" +:+ str sub in
  ent ← get_token EntitlementToken;
  acc ← get_token AccessToken;
  r ← send (mkRequest ViaSession GET u
        [("X-Riot-Entitlements-JWT", HStr ent);
         ("Authorization", HStr ("Bearer " +:+ acc))]
        None None);
  response_json r.

Definition get_items (self : Valorant) (item_type : string) : Prog Json :=
  sub ← lift (subscript (user_info self) "sub");
  let u := pd_server self +:+ API_OWNED +:+ "/" +:+ str sub +:+ "/" +:+ item_type in
  ent ← get_token EntitlementToken;
  acc ← get_token AccessToken;
  r ← send (mkRequest ViaSession GET u
        [("X-Riot-Entitlements-JWT", HStr ent);
         ("Authorization", HStr ("Bearer " +:+ acc))]
        None None);
  response_json r.

Definition get_pregame_id (self : Valorant) (player_id : option string) : Prog Json :=
  player_id ← or_sub self player_id;
  let u := glz_server self +:+ API_PREGAME_PLAYER +:+ "/" +:+ str player_id in
  ent ← get_token EntitlementToken;
  acc ← get_token AccessToken;
  r ← send (mkRequest ViaSession GET u
        [("X-Riot-Entitlements-JWT", HStr ent);
         ("Authorization", HStr ("Bearer " +:+ acc))]
        None None);
  response_json r.

(** [if x is None: x = self.get_pregame_id()["MatchID"]] *)
Definition or_pregame_match_id (self : Valorant) (match_id : option string) : Prog Json :=
  match match_id with
  | None => d ← get_pregame_id self None; lift (subscript d "MatchID")
  | Some s => Ret (JStr s)
  end.

(** [if x is None: x = self.get_pregame_id()] *)
Definition or_pregame_id (self : Valorant) (match_id : option string) : Prog Json :=
  match match_id with
  | None => get_pregame_id self None
  | Some s => Ret (JStr s)
  end.

Definition get_pregame_match (self : Valorant) (pregame_match_id : option string) : Prog Json :=
  pregame_match_id ← or_pregame_match_id self pregame_match_id;
  let u := glz_server self +:+ API_PREGAME_MATCH +:+ "/" +:+ str pregame_match_id in
  ent ← get_token EntitlementToken;
  acc ← get_token AccessToken;
  r ← send (mkRequest ViaSession GET u
        [("X-Riot-Entitlements-JWT", HStr ent);
         ("Authorization", HStr ("Bearer " +:+ acc))]
        None None);
  response_json r.

Definition get_pregame_loadout (self : Valorant) (pregame_match_id : option string) : Prog Json :=
  pregame_match_id ← or_pregame_match_id self pregame_match_id;
  let u := glz_server self +:+ API_PREGAME_MATCH +:+ "/" +:+ str pregame_match_id
           +:+ "/loadouts" in
  ent ← get_token EntitlementToken;
  acc ← get_token AccessToken;
  r ← send (mkRequest ViaSession GET u
        [("X-Riot-Entitlements-JWT", HStr ent);
         ("Authorization", HStr ("Bearer " +:+ acc))]
        None None);
  response_json r.

Definition select_agent (self : Valorant) (agent_id : string)
    (pregame_match_id : option string) : Prog Json :=
  pregame_match_id ← or_pregame_id self pregame_match_id;
  let u := glz_server self +:+ API_MATCHES +:+ "/" +:+ str pregame_match_id
           +:+ "/select/" +:+ agent_id in
  ent ← get_token EntitlementToken;
  acc ← get_token AccessToken;
  r ← send (mkRequest ViaSession POST u
        [("X-Riot-Entitlements-JWT", HStr ent);
         ("Authorization", HStr ("Bearer " +:+ acc))]
        None None);
  response_json r.

Definition lock_agent (self : Valorant) (agent_id : string)
    (pregame_match_id : option string) : Prog Json :=
  pregame_match_id ← or_pregame_id self pregame_match_id;
  let u := glz_server self +:+ API_MATCHES +:+ "/" +:+ str pregame_match_id
           +:+ "/lock/" +:+ agent_id in
  ent ← get_token EntitlementToken;
  acc ← get_token AccessToken;
  r ← send (mkRequest ViaSession POST u
        [("X-Riot-Entitlements-JWT", HStr ent);
         ("Authorization", HStr ("Bearer " +:+ acc))]
        None None);
  response_json r.

Definition quit_pregame (self : Valorant) (pregame_match_id : option string) : Prog Json :=
  pregame_match_id ← or_pregame_id self pregame_match_id;
  let u := glz_server self +:+ API_MATCHES +:+ "/" +:+ str pregame_match_id +:+ "/quit" in
  ent ← get_token EntitlementToken;
  acc ← get_token AccessToken;
  r ← send (mkRequest ViaSession POST u
        [("X-Riot-Entitlements-JWT", HStr ent);
         ("Authorization", HStr ("Bearer " +:+ acc))]
        None None);
  response_json r.

Definition get_current_game_player (self : Valorant) (player_id : option string) : Prog Json :=
  player_id ← or_sub self player_id;
  let u := glz_server self +:+ API_CURRENT_GAME_PLAYER +:+ "/" +:+ str player_id in
  act (PrintOut u);;
  ent ← get_token EntitlementToken;
  acc ← get_token AccessToken;
  r ← send (mkRequest ViaSession GET u
        [("X-Riot-Entitlements-JWT", HStr ent);
         ("Authorization", HStr ("Bearer " +:+ acc))]
        None None);
  response_json r.

Definition get_current_game_match (self : Valorant) (current_match_id : option string) : Prog Json :=
  current_match_id ← or_pregame_match_id self current_match_id;
  let u := glz_server self +:+ API_CURRENT_GAME_MATCH +:+ "/" +:+ str current_match_id in
  ent ← get_token EntitlementToken;
  acc ← get_token AccessToken;
  r ← send (mkRequest ViaSession GET u
        [("X-Riot-Entitlements-JWT", HStr ent);
         ("Authorization", HStr ("Bearer " +:+ acc))]
        None None);
  response_json r.

Definition get_current_game_loadout (self : Valorant) (current_match_id : option string) : Prog Json :=
  current_match_id ← or_pregame_match_id self current_match_id;
  let u := glz_server self +:+ API_CURRENT_GAME_MATCH +:+ "/" +:+ str current_match_id
           +:+ "/loadouts" in
  ent ← get_token EntitlementToken;
  acc ← get_token AccessToken;
  r ← send (mkRequest ViaSession GET u
        [("X-Riot-Entitlements-JWT", HStr ent);
         ("Authorization", HStr ("Bearer " +:+ acc))]
        None None);
  response_json r.

Definition get_item_upgrades (self : Valorant) : Prog Json :=
  let u := pd_server self +:+ API_ITEM_UPGRADES in
  ent ← get_token EntitlementToken;
  acc ← get_token AccessToken;
  r ← send (mkRequest ViaSession GET u
        [("X-Riot-Entitlements-JWT", HStr ent);
         ("Authorization", HStr ("Bearer " +:+ acc))]
        None None);
  response_json r.

Definition get_contracts (self : Valorant) (player_id : option string) : Prog Json :=
  player_id ← or_sub self player_id;
  let u := pd_server self +:+ API_CONTRACTS +:+ "/" +:+ str player_id in
  ver ← client_version self;
  ent ← get_token EntitlementToken;
  acc ← get_token AccessToken;
  r ← send (mkRequest ViaSession GET u
        [("X-Riot-ClientVersion", header_value ver);
         ("X-Riot-Entitlements-JWT", HStr ent);
         ("Authorization", HStr ("Bearer " +:+ acc))]
        None None);
  response_json r.

(** One call of a method whose URL is built on [pd_server] or
    [glz_server], with its arguments. *)
Inductive Call : Type :=
| CGetContent
| CGetAccountXp
| CGetLoadout
| CSetLoadout (loadout : Json)
| CGetPlayerMmr (player_id : option string)
| CGetMatchHistory (player_id : option string) (offset amount : option Z)
| CGetMatchDetails (match_id : string)
| CGetLeaderboard (season_id : string) (start amount : Z) (username : option string)
| CGetPenalties
| CGetConfig
| CGetPrices
| CGetStore
| CGetWallet
| CGetItems (item_type : string)
| CGetPregameId (player_id : option string)
| CGetPregameMatch (pregame_match_id : option string)
| CGetPregameLoadout (pregame_match_id : option string)
| CSelectAgent (agent_id : string) (pregame_match_id : option string)
| CLockAgent (agent_id : string) (pregame_match_id : option string)
| CQuitPregame (pregame_match_id : option string)
| CGetCurrentGamePlayer (player_id : option string)
| CGetCurrentGameMatch (current_match_id : option string)
| CGetCurrentGameLoadout (current_match_id : option string)
| CGetItemUpgrades
| CGetContracts (player_id : option string).

(** The method a call names; [set_loadout] returns [None]. *)
Definition perform (self : Valorant) (c : Call) : Prog Json :=
  match c with
  | CGetContent => get_content self
  | CGetAccountXp => get_account_xp self
  | CGetLoadout => get_loadout self
  | CSetLoadout loadout => set_loadout self loadout;; Ret JNull
  | CGetPlayerMmr player_id => get_player_mmr self player_id
  | CGetMatchHistory player_id offset amount => get_match_history self player_id offset amount
  | CGetMatchDetails match_id => get_match_details self match_id
  | CGetLeaderboard season_id start amount username =>
      get_leaderboard self season_id start amount username
  | CGetPenalties => get_penalties self
  | CGetConfig => get_config self
  | CGetPrices => get_prices self
  | CGetStore => get_store self
  | CGetWallet => get_wallet self
  | CGetItems item_type => get_items self item_type
  | CGetPregameId player_id => get_pregame_id self player_id
  | CGetPregameMatch pregame_match_id => get_pregame_match self pregame_match_id
  | CGetPregameLoadout pregame_match_id => get_pregame_loadout self pregame_match_id
  | CSelectAgent agent_id pregame_match_id => select_agent self agent_id pregame_match_id
  | CLockAgent agent_id pregame_match_id => lock_agent self agent_id pregame_match_id
  | CQuitPregame pregame_match_id => quit_pregame self pregame_match_id
  | CGetCurrentGamePlayer player_id => get_current_game_player self player_id
  | CGetCurrentGameMatch current_match_id => get_current_game_match self current_match_id
  | CGetCurrentGameLoadout current_match_id => get_current_game_loadout self current_match_id
  | CGetItemUpgrades => get_item_upgrades self
  | CGetContracts player_id => get_contracts self player_id
  end.

End Methods.

End Client.

(** ** valostore/constants.py *)

Module Valostore.

Definition AUTH_URL : string := "https://auth.riotgames.com/api/v1/authorization".
Definition REGION_URL : string := "https://riot-geo.pas.si.riotgames.com/pas/v1/product/valorant".
Definition VERIFIED_URL : string := "https://email-verification.riotgames.com/api/v1/account/status".
Definition ENTITLEMENT_URL : string := "https://entitlements.auth.riotgames.com/api/token/v1".
Definition USERINFO_URL : string := "https://auth.riotgames.com/userinfo".

Definition CONTENT : string := "/content-service/v3/content".
Definition ACCOUNT_XP : string := "/account-xp/v1/players/".
Definition MMR : string := "/mmr/v1/players/".
Definition STORE : string := "/store/v2/storefront/".
Definition PRICES : string := "/store/v1/offers".
Definition WALLET : string := "/store/v1/wallet/".
Definition OWNED : string := "/store/v1/entitlements/".
Definition CHAT : string := "/pas/v1/service/chat".

(** The items of the two dict literals, in the order written. *)
Definition xmpp_regions_items : list (string * string) :=
  [("as2", "as2"); ("asia", "jp1"); ("br1", "br1"); ("eu", "ru1"); ("eu3", "eu3");
   ("eun1", "eu2"); ("euw1", "eu1"); ("jp1", "jp1"); ("kr1", "kr1"); ("la1", "la1");
   ("la2", "la2"); ("na1", "na1"); ("oc1", "oc1"); ("pbe1", "pb1"); ("ru1", "ru1");
   ("sea1", "sa1"); ("sea2", "sa2"); ("sea3", "sa3"); ("sea4", "sa4"); ("tr1", "tr1");
   ("us", "la1"); ("us-br1", "br1"); ("us-la2", "la2"); ("us2", "us2")].

Definition xmpp_servers_items : list (string * string) :=
  [("as2", "as2.chat.si.riotgames.com"); ("asia", "jp1.chat.si.riotgames.com");
   ("br1", "br.chat.si.riotgames.com"); ("eu", "ru1.chat.si.riotgames.com");
   ("eu3", "eu3.chat.si.riotgames.com"); ("eun1", "eun1.chat.si.riotgames.com");
   ("euw1", "euw1.chat.si.riotgames.com"); ("jp1", "jp1.chat.si.riotgames.com");
   ("kr1", "kr1.chat.si.riotgames.com"); ("la1", "la1.chat.si.riotgames.com");
   ("la2", "la2.chat.si.riotgames.com"); ("na1", "na2.chat.si.riotgames.com");
   ("oc1", "oc1.chat.si.riotgames.com"); ("pbe1", "pbe1.chat.si.riotgames.com");
   ("ru1", "ru1.chat.si.riotgames.com"); ("sea1", "sa1.chat.si.riotgames.com");
   ("sea2", "sa2.chat.si.riotgames.com"); ("sea3", "sa3.chat.si.riotgames.com");
   ("sea4", "sa4.chat.si.riotgames.com"); ("tr1", "tr1.chat.si.riotgames.com");
   ("us", "la1.chat.si.riotgames.com"); ("us-br1", "br.chat.si.riotgames.com");
   ("us-la2", "la2.chat.si.riotgames.com"); ("us2", "us2.chat.si.riotgames.com")].

Definition xmpp_regions : gmap string string := list_to_map xmpp_regions_items.
Definition xmpp_servers : gmap string string := list_to_map xmpp_servers_items.

End Valostore.

(** ** What the claims are stated with *)

Module Watch.
Import Py Http Client.

(** The request of the [client_version] property. *)
Definition version_request : Request :=
  mkRequest ViaRequests GET VERSION_URL [] None (Some 30).



(** The tokens the [Auth] object handed out last. *)
Record Tokens : Type := mkTokens {
  last_access : option string;
  last_entitlement : option string
}.

Definition note_token (s : Tokens) (ev : Event) : Tokens :=
  match ev with
  | EvToken AccessToken (Returns v) => mkTokens (Some v) (last_entitlement s)
  | EvToken EntitlementToken (Returns v) => mkTokens (last_access s) (Some v)
  | _ => s
  end.

(** Every request but the version lookup carries the two tokens handed
    out last: ["Bearer "] and the access token under [Authorization], the
    entitlement token under [X-Riot-Entitlements-JWT]. *)
Definition tokens_attached : Monitor Tokens :=
  mkMonitor
    (fun s ev =>
       match ev with
       | EvSend req _ =>
           req = version_request
           \/ exists acc ent,
                last_access s = Some acc /\ last_entitlement s = Some ent
                /\ dict_get "Authorization" (headers req) = Some (HStr ("Bearer " +:+ acc))
                /\ dict_get "X-Riot-Entitlements-JWT" (headers req) = Some (HStr ent)
       | _ => True
       end)
    note_token.

(** No run sends more than [n] requests; the state counts them. *)
Definition at_most (n : nat) : Monitor nat :=
  mkMonitor
    (fun k ev => match ev with EvSend _ _ => (k < n)%nat | _ => True end)
    (fun k ev => match ev with EvSend _ _ => S k | _ => k end).


(** Every request but the version lookup goes to the URL [u]. *)
Definition only_url (u : string) : Monitor unit :=
  mkMonitor
    (fun _ ev =>
       match ev with
       | EvSend req _ => req = version_request \/ url req = u
       | _ => True
       end)
    (fun s _ => s).






End Watch.

(** ** A scripted environment, for running the client on examples *)

Module Script.
Import Py Http.

Record World : Type := mkWorld {
  served : list Request;
  logins : nat;
  console : list string
}.

Definition start : World := mkWorld [] 0 [].

(** Tokens depend on how often the cookies were set; the network answers
    from the requests it has served so far. *)
Definition env (tokens : Token -> nat -> string)
    (reply : list Request -> Request -> Outcome Response) : Env World :=
  mkEnv
    (fun a w =>
       match a with
       | SetAuthCookies => (None, mkWorld (served w) (S (logins w)) (console w))
       | PrintOut t => (None, mkWorld (served w) (logins w) (console w ++ [t]))
       | _ => (None, w)
       end)
    (fun t w => (Returns (tokens t (logins w)), w))
    (fun req w => (reply (served w) req, mkWorld (served w ++ [req]) (logins w) (console w))).

Definition tokens (t : Token) (n : nat) : string :=
  match t with
  | AccessToken => "access-" +:+ pretty n
  | IdToken => "id-" +:+ pretty n
  | EntitlementToken => "entitlement-" +:+ pretty n
  end.

Definition version_body : Json :=
  JDict [("status", JInt 200);
         ("data", JDict [("riotClientVersion", JStr "release-08.00-shipping-1-100");
                         ("riotClientBuild", JStr "80.0.0.100")])].

Definition self : Client.Valorant :=
  let r := Constants.mkRegion "na1" "na1" in
  Client.mkValorant r (Client.pd_server_of r) (Client.glz_server_of r)
    (JDict [("sub", JStr "player-1")]).



Definition unauthorized_body : Json :=
  JDict [("httpStatus", JInt 401); ("errorCode", JStr "BAD_CLAIMS");
         ("message", JStr "Failure validating/decoding RSO Access Token")].


Definition version_reply : Outcome Response :=
  Returns (mkResponse 200 (Some version_body)).



(** A backend whose 200 responses carry a body that is not JSON. *)
Definition reply_not_json (served : list Request) (req : Request) : Outcome Response :=
  if String.eqb (url req) Client.VERSION_URL then version_reply
  else Returns (mkResponse 200 None).

(** The region table of the spec's example: [na1] maps to region [na1],
    shard [na1]. *)
Definition regions_na1 : gmap string Constants.Region :=
  {[ "na1" := Constants.mkRegion "na1" "na1" ]}.

(** A geolocation service that reports the affinity [code]. *)
Definition reply_affinity (code : string) (served : list Request) (req : Request)
    : Outcome Response :=
  if String.eqb (url req) Client.VERSION_URL then version_reply
  else if String.eqb (url req) Client.GEO_URL
  then Returns (mkResponse 200 (Some (JDict [("affinities", JDict [("live", JStr code)])])))
  else Returns (mkResponse 200 (Some (JDict [("sub", JStr "player-1")]))).

(** Sample values for path constants of valorant/constants.py, which the
    sources do not show. *)
Definition PREGAME_PLAYER : string := "/pregame/v1/players".
Definition PREGAME_MATCH : string := "/pregame/v1/matches".
Definition MATCHES : string := "/match-details/v1/matches".
Definition LEADERBOARD : string := "/mmr/v1/leaderboards".

Definition PERSONALIZATION : string := "/personalization/v2/players".
Definition HISTORY : string := "/match-history/v1/history".
Definition PENALTIES : string := "/restrictions/v3/penalties".
Definition CONFIG : string := "/v1/config".
Definition CURRENT_GAME_PLAYER : string := "/core-game/v1/players".
Definition CURRENT_GAME_MATCH : string := "/core-game/v1/matches".
Definition ITEM_UPGRADES : string := "/contract-definitions/v3/item-upgrades".
Definition CONTRACTS : string := "/contracts/v1/contracts".

(** The methods over the constants of valostore/constants.py and the
    sample values above. *)
Definition call (c : Client.Call) : Prog Json :=
  Client.perform Valostore.CONTENT Valostore.ACCOUNT_XP PERSONALIZATION Valostore.MMR HISTORY
    MATCHES LEADERBOARD PENALTIES CONFIG Valostore.PRICES
    Valostore.STORE Valostore.WALLET Valostore.OWNED PREGAME_PLAYER PREGAME_MATCH
    CURRENT_GAME_PLAYER CURRENT_GAME_MATCH ITEM_UPGRADES CONTRACTS
    self c.

(** A pre-game service: the player lookup names the match [m-1]. *)
Definition pregame_body : Json := JDict [("Subject", JStr "player-1"); ("MatchID", JStr "m-1")].

Definition reply_pregame (served : list Request) (req : Request) : Outcome Response :=
  if String.eqb (url req) Client.VERSION_URL then version_reply
  else Returns (mkResponse 200 (Some pregame_body)).

End Script.

(** ** More of Python: indexing, iteration and [==] on decoded values *)

Module PyObj.
Import Py.

Definition is_continuation (c : ascii) : bool :=
  let n := N_of_ascii c in (128 <=? n)%N && (n <? 192)%N.

Definition continues (s : string) : bool :=
  match s with
  | String c _ => is_continuation c
  | EmptyString => false
  end.

(** The characters of a [str], each with all the bytes of its UTF-8 form. *)
Fixpoint chars (s : string) : list string :=
  match s with
  | EmptyString => []
  | String c r =>
      match chars r with
      | first :: rest =>
          if continues r then String c first :: rest
          else String c "" :: first :: rest
      | [] => [String c ""]
      end
  end.

(** [v[0]] *)
Definition item0 (v : Json) : Outcome Json :=
  match v with
  | JList (x :: _) => Returns x
  | JList [] => Raises (OtherError "IndexError")
  | JStr s =>
      match chars s with
      | c :: _ => Returns (JStr c)
      | [] => Raises (OtherError "IndexError")
      end
  | JDict _ => Raises (KeyError (JInt 0))
  | _ => Raises TypeError
  end.

(** What iterating over [v] yields: the items of a list, the keys of a
    dict, the characters of a string; nothing else can be iterated. *)
Definition iterate (v : Json) : Outcome (list Json) :=
  match v with
  | JList l => Returns l
  | JDict kvs => Returns (map (fun kv => JStr (fst kv)) kvs)
  | JStr s => Returns (map JStr (chars s))
  | _ => Raises TypeError
  end.

(** [v.get(k, default)]: only a dict has the method. *)
Definition get_or (v : Json) (k : string) (default : Json) : Outcome Json :=
  match v with
  | JDict kvs =>
      Returns (match dict_get k kvs with Some x => x | None => default end)
  | _ => Raises (OtherError "AttributeError")
  end.

(** *** Numbers, for [==] across [bool], [int] and [float] *)

Inductive Num : Type :=
| Finite (m e : Z)
| PosInf
| NegInf
| NotANumber.

Definition digit_of (c : ascii) : option Z :=
  let n := N_of_ascii c in
  if (48 <=? n)%N && (n <=? 57)%N then Some (Z.of_N (n - 48)) else None.

Fixpoint digits_go (acc : Z) (s : string) : option Z :=
  match s with
  | EmptyString => Some acc
  | String c r =>
      match digit_of c with
      | Some d => digits_go (10 * acc + d) r
      | None => None
      end
  end.

Definition digits (s : string) : option Z :=
  match s with
  | EmptyString => None
  | _ => digits_go 0 s
  end.

(** The text before the first [c], and the text after it if there is one. *)
Fixpoint split_at (c : ascii) (s : string) : string * option string :=
  match s with
  | EmptyString => (EmptyString, None)
  | String a r =>
      if Ascii.eqb a c then (EmptyString, Some r)
      else let '(before, after) := split_at c r in (String a before, after)
  end.

Definition signed_digits (s : string) : option Z :=
  match s with
  | String "-" r => Z.opp <$> digits r
  | String "+" r => digits r
  | _ => digits s
  end.

(** The value of the text Python prints for a float: [m * 10 ^ e]. *)
Definition float_value (t : string) : Num :=
  if String.eqb t "nan" then NotANumber
  else if String.eqb t "inf" then PosInf
  else if String.eqb t "-inf" then NegInf
  else
    let '(mantissa, exponent) := split_at "e" t in
    let '(negative, magnitude) :=
      match mantissa with
      | String "-" r => (true, r)
      | _ => (false, mantissa)
      end in
    let '(whole, fraction) := split_at "." magnitude in
    let fraction := default EmptyString fraction in
    match digits (whole +:+ fraction),
          match exponent with Some x => signed_digits x | None => Some 0 end with
    | Some m, Some e =>
        Finite (if negative then - m else m) (e - Z.of_nat (String.length fraction))
    | _, _ => NotANumber
    end.

Definition number (v : Json) : option Num :=
  match v with
  | JBool true => Some (Finite 1 0)
  | JBool false => Some (Finite 0 0)
  | JInt z => Some (Finite z 0)
  | JFloat t => Some (float_value t)
  | _ => None
  end.

Definition num_eq (x y : Num) : bool :=
  match x, y with
  | Finite m1 e1, Finite m2 e2 =>
      let e := Z.min e1 e2 in
      (m1 * 10 ^ (e1 - e) =? m2 * 10 ^ (e2 - e))
  | PosInf, PosInf => true
  | NegInf, NegInf => true
  | _, _ => false
  end.

(** [a == b] on two decoded values that are not one object. *)
Fixpoint py_eq (a b : Json) : bool :=
  match a, b with
  | JNull, JNull => true
  | JStr s, JStr t => String.eqb s t
  | JList l, JList l' =>
      (fix all2 (l : list Json) (l' : list Json) : bool :=
         match l, l' with
         | [], [] => true
         | x :: r, y :: r' => py_eq x y && all2 r r'
         | _, _ => false
         end) l l'
  | JDict kvs, JDict kvs' =>
      Nat.eqb (length kvs) (length kvs')
      && forallb (fun kv =>
                    match dict_get (fst kv) kvs' with
                    | Some v' => py_eq (snd kv) v'
                    | None => false
                    end) kvs
  | _, _ =>
      match number a, number b with
      | Some x, Some y => num_eq x y
      | _, _ => false
      end
  end.

(** [list(filter(lambda player_data: player_data["subject"] == player_id,
    players))] over the items [players] yields: the test runs on every
    item in order, and the first item that cannot be subscripted raises. *)
Fixpoint filter_subject (player_id : Json) (players : list Json) : Outcome (list Json) :=
  match players with
  | [] => Returns []
  | player_data :: rest =>
      match subscript player_data "subject" with
      | Raises e => Raises e
      | Returns subject =>
          match filter_subject player_id rest with
          | Raises e => Raises e
          | Returns kept =>
              Returns (if py_eq subject player_id then player_data :: kept else kept)
          end
      end
  end.

End PyObj.

(** ** valorant/valorant.py: get_border_level and get_xmpp_socket *)

Module Border.
Import Py Http Client PyObj.

Definition DEFAULT_BORDER : string := "ebc736cd-4b6a-137b-e2b0-1486e31312c9".
Definition LEVELBORDERS_URL : string := "https://valorant-api.com/v1/levelborders/".

(** [if player_id is None: player_id = self.user_info["sub"]], for an
    argument that is any Python value. *)
Definition or_sub_obj (self : Valorant) (player_id : Json) : Prog Json :=
  match player_id with
  | JNull => lift (subscript (user_info self) "sub")
  | _ => Ret player_id
  end.

Section Methods.
Variables API_HISTORY API_MATCHES : string.

(** [get_match_history] as [get_border_level] calls it: the player id is
    whatever value [user_info["sub"]] held, not always a [str]. *)
Definition get_match_history_obj (self : Valorant) (player_id : Json)
    (offset amount : option Z) : Prog Json :=
  player_id ← or_sub_obj self player_id;
  let u := pd_server self +:+ API_HISTORY +:+ "/" +:+ str player_id
           +:+ "?startIndex=" +:+ str_opt str_int offset
           +:+ "&endIndex=" +:+ str_opt str_int amount in
  ent ← get_token EntitlementToken;
  acc ← get_token AccessToken;
  r ← send (mkRequest ViaSession GET u
        [("X-Riot-Entitlements-JWT", HStr ent);
         ("Authorization", HStr ("Bearer " +:+ acc))]
        None None);
  response_json r.

(** [get_match_details] as [get_border_level] calls it: the match id is
    whatever value the history held. *)
Definition get_match_details_obj (self : Valorant) (match_id : Json) : Prog Json :=
  let u := pd_server self +:+ API_MATCHES +:+ "/" +:+ str match_id in
  ent ← get_token EntitlementToken;
  acc ← get_token AccessToken;
  r ← send (mkRequest ViaSession GET u
        [("X-Riot-Entitlements-JWT", HStr ent);
         ("Authorization", HStr ("Bearer " +:+ acc))]
        None None);
  response_json r.

Definition get_border_level (self : Valorant) (player_id : option string) : Prog Json :=
  player_id ← or_sub self player_id;
  history ← get_match_history_obj self player_id (Some 0) (Some 1);
  matches ← lift (subscript history "History");
  last_match ← lift (item0 matches);
  last_match_id ← lift (subscript last_match "MatchID");
  details ← get_match_details_obj self last_match_id;
  players ← lift (subscript details "players");
  items ← lift (iterate players);
  found ← lift (filter_subject player_id items);
  player ← lift (item0 (JList found));
  preferred_border ← lift (get_or player "preferredLevelBorder" (JStr DEFAULT_BORDER));
  r ← send (mkRequest ViaRequests GET (LEVELBORDERS_URL +:+ str preferred_border)
        [] None None);
  j ← response_json r;
  lift (subscript j "data").

End Methods.

(** The body is [pass]. *)
Definition get_xmpp_socket (self : Valorant) : Prog Json := Ret JNull.

End Border.

(** ** What the further properties are stated with *)

Module Observe.
Import Py Http Client PyObj.

(** The responses a run received, in order. *)
Definition answers (tr : list Event) : list Response :=
  omap (fun ev => match ev with EvSend _ (Returns r) => Some r | _ => None end) tr.

(** The exception the environment raised to end a run, if it did. *)
Definition env_raised (tr : list Event) : option PyExn :=
  match last tr with
  | Some (EvAct _ (Some e)) => Some e
  | Some (EvToken _ (Raises e)) => Some e
  | Some (EvSend _ (Raises e)) => Some e
  | _ => None
  end.

(** The calls that read [self.user_info["sub"]]: those that name no
    player, and those that look up the pre-game match of the user. *)
Definition needs_sub (c : Call) : bool :=
  match c with
  | CGetAccountXp | CGetLoadout | CSetLoadout _ | CGetStore | CGetWallet | CGetItems _ => true
  | CGetPlayerMmr None | CGetMatchHistory None _ _ | CGetPregameId None
  | CGetCurrentGamePlayer None | CGetContracts None => true
  | CGetPregameMatch None | CGetPregameLoadout None
  | CSelectAgent _ None | CLockAgent _ None | CQuitPregame None
  | CGetCurrentGameMatch None | CGetCurrentGameLoadout None => true
  | _ => false
  end.

Definition with_user_info (self : Valorant) (info : Json) : Valorant :=
  mkValorant (region self) (pd_server self) (glz_server self) info.

(** The calls whose headers hold [self.client_version]. *)
Definition uses_version (c : Call) : bool :=
  match c with
  | CGetContent | CGetPlayerMmr _ | CGetLeaderboard _ _ _ _ | CGetStore | CGetContracts _ => true
  | _ => false
  end.

(** The calls that take the match id out of what [get_pregame_id]
    returns. *)
Definition reads_match_id (c : Call) : bool :=
  match c with
  | CGetPregameMatch None | CGetPregameLoadout None
  | CGetCurrentGameMatch None | CGetCurrentGameLoadout None => true
  | _ => false
  end.


Definition is_get_store (c : Call) : bool :=
  match c with
  | CGetStore => true
  | _ => false
  end.

(** Every request but the version lookup is sent by [own]. *)
Definition sent_by (own : Sender) : Monitor unit :=
  mkMonitor
    (fun _ ev =>
       match ev with
       | EvSend req _ => req = Watch.version_request \/ sender req = own
       | _ => True
       end)
    (fun s _ => s).

(** Every request but the version lookup holds [value] under the header
    [name] ([None]: it has no such header). *)
Definition header_is (name : string) (value : option HeaderVal) : Monitor unit :=
  mkMonitor
    (fun _ ev =>
       match ev with
       | EvSend req _ =>
           req = Watch.version_request \/ dict_get name (headers req) = value
       | _ => True
       end)
    (fun s _ => s).

(** The value each call sends under [X-Riot-ClientPlatform]. *)
Definition platform_header (self : Valorant) (c : Call) : option HeaderVal :=
  match c with
  | CGetContent =>
      Some (HStr ("b" +:+ String squote (client_platform self +:+ String squote "")))
  | CGetPlayerMmr _ | CGetPenalties | CGetStore => Some (HBytes (client_platform self))
  | _ => None
  end.

(** Every request but the version lookup goes out without a timeout. *)
Definition no_timeout : Monitor unit :=
  mkMonitor
    (fun _ ev =>
       match ev with
       | EvSend req _ => req = Watch.version_request \/ timeout req = None
       | _ => True
       end)
    (fun s _ => s).

(** What was printed last. *)
Definition note_print (s : option string) (ev : Event) : option string :=
  match ev with
  | EvAct (PrintOut text) None => Some text
  | _ => s
  end.

(** A token is fetched and a request is sent only after the URL of that
    request has been printed. *)
Definition printed_first : Monitor (option string) :=
  mkMonitor
    (fun s ev =>
       match ev with
       | EvSend req _ => s = Some (url req)
       | EvToken _ _ => is_Some s
       | EvAct _ _ => True
       end)
    note_print.

(** A response that holds a client version under
    [["data"]["riotClientVersion"]]. *)
Definition has_version (r : Response) : bool :=
  match json r with
  | Some j =>
      match subscript j "data" with
      | Returns d =>
          match subscript d "riotClientVersion" with
          | Returns _ => true
          | Raises _ => false
          end
      | Raises _ => false
      end
  | None => false
  end.

(** No request other than the version lookup goes out before a response
    with a client version has come in. *)
Definition version_first : Monitor bool :=
  mkMonitor
    (fun s ev =>
       match ev with
       | EvSend req _ => req = Watch.version_request \/ s = true
       | _ => True
       end)
    (fun s ev =>
       match ev with
       | EvSend _ (Returns r) => s || has_version r
       | _ => s
       end).


(** A request either carries the two tokens handed out last, or is a
    bare [requests.get] of a level border: no headers, hence no token. *)
Definition tokens_or_public : Monitor Watch.Tokens :=
  mkMonitor
    (fun s ev =>
       match ev with
       | EvSend req _ =>
           (sender req = ViaRequests /\ headers req = []
            /\ exists border, url req = Border.LEVELBORDERS_URL +:+ border)
           \/ exists acc ent,
                Watch.last_access s = Some acc /\ Watch.last_entitlement s = Some ent
                /\ dict_get "Authorization" (headers req) = Some (HStr ("Bearer " +:+ acc))
                /\ dict_get "X-Riot-Entitlements-JWT" (headers req) = Some (HStr ent)
       | _ => True
       end)
    Watch.note_token.

Definition is_dict (v : Json) : bool :=
  match v with
  | JDict _ => true
  | _ => false
  end.

(** The border [get_border_level] asks for on behalf of [player]. *)
Definition border_of (player : Json) : Json :=
  match player with
  | JDict kvs =>
      match dict_get "preferredLevelBorder" kvs with
      | Some b => b
      | None => JStr Border.DEFAULT_BORDER
      end
  | _ => JStr Border.DEFAULT_BORDER
  end.


(** A program with no [raise] of the exception [e] on any path. *)
Fixpoint Avoids {A : Type} (e : PyExn) (p : Prog A) : Prop :=
  match p with
  | Ret _ => True
  | Raise e' => e' <> e
  | Act _ k => Avoids e k
  | GetToken _ k => forall v, Avoids e (k v)
  | Send _ k => forall r, Avoids e (k r)
  end.

(** Chat region and chat server of every code, side by side. *)
Definition xmpp_rows : list (string * string * string) :=
  omap (fun kv =>
          match dict_get (fst kv) Valostore.xmpp_servers_items with
          | Some server => Some (fst kv, snd kv, server)
          | None => None
          end) Valostore.xmpp_regions_items.

End Observe.

(** ** More scripted backends *)

Module Play.
Import Py Http.


Definition empty_history_body : Json :=
  JDict [("Subject", JStr "player-1"); ("History", JList [])].

Definition details_body : Json :=
  JDict [("players",
          JList [JDict [("subject", JStr "player-2"); ("preferredLevelBorder", JStr "border-2")];
                 JDict [("subject", JStr "player-1"); ("preferredLevelBorder", JStr "border-5")]])].



Definition border_body : Json :=
  JDict [("status", JInt 200); ("data", JDict [("uuid", JStr "border-5")])].

(** Answers by position: the history, then the match, then the border. *)
Definition reply_in_turn (history details : Json) (served : list Request) (req : Request)
    : Outcome Response :=
  match length served with
  | O => Returns (mkResponse 200 (Some history))
  | 1%nat => Returns (mkResponse 200 (Some details))
  | _ => Returns (mkResponse 200 (Some border_body))
  end.

(** A network whose transport fails with the named exception. *)
Definition reply_raises (name : string) (served : list Request) (req : Request)
    : Outcome Response :=
  Raises (OtherError name).

Definition nobody : Client.Valorant :=
  Observe.with_user_info Script.self (JDict []).

End Play.

(** * Facts *)

Import Py Http Client.

(** ** Walking a method body *)

Create HintDb methods.

#[local] Hint Unfold
  perform get_content get_account_xp get_loadout set_loadout get_player_mmr
  get_match_history get_match_details get_leaderboard get_penalties get_config
  get_prices get_store get_wallet get_items get_pregame_id get_pregame_match
  get_pregame_loadout select_agent lock_agent quit_pregame get_current_game_player
  get_current_game_match get_current_game_loadout get_item_upgrades get_contracts
  get_user_info get_region init
  or_sub or_pregame_id or_pregame_match_id client_version
  response_json lift act get_token send mbind prog_bind mret prog_ret : methods.

#[local] Arguments client_platform : simpl never.
#[local] Arguments subscript : simpl never.
#[local] Arguments str : simpl never.
#[local] Arguments repr_bytes : simpl never.
#[local] Arguments String.append : simpl never.
#[local] Arguments pd_server_of : simpl never.
#[local] Arguments glz_server_of : simpl never.

(** Splits on every answer and on every value the body inspects. *)
Ltac walk_step :=
  match goal with
  | |- True => exact I
  | |- _ /\ _ => split
  | |- forall _, _ => intro
  | |- _ = _ => first [ reflexivity | eassumption ]
  | |- _ \/ _ => first [ left; reflexivity | right ]
  | |- exists _, _ => eexists
  | |- (_ < _)%nat => lia
  | |- _ <> _ => discriminate
  | |- context [match ?x with _ => _ end] => destruct x eqn:?
  end.

Ltac walk := autounfold with methods; cbn; repeat (walk_step; cbn).

(** Splits a run on what the environment answers next. *)
Ltac answer E :=
  match goal with
  | |- context [on_action E ?a ?w] => destruct (on_action E a w) as [[?e |] ?w]
  | |- context [on_token E ?t ?w] => destruct (on_token E t w) as [[?v | ?e] ?w]
  | |- context [on_send E ?q ?w] => destruct (on_send E q w) as [[?r | ?e] ?w]
  end; cbn.

(** ** Runs and programs *)

Section RunFacts.
Context {W : Type}.

(** A property checked on the program holds of every run of it. *)
Lemma obeys_accepts {S A : Type} (M : Monitor S) (p : Prog A) :
  forall (s : S) (E : Env W) (w : W),
    Obeys M s p -> Accepts M s (trace (run E p w)).
Proof.
  induction p as [a | e | a k IH | t k IH | req k IH]; intros s E w Hp; simpl in *.
  - exact I.
  - exact I.
  - destruct Hp as [Hok Hk].
    destruct (on_action E a w) as [[e |] w']; simpl.
    + split; [apply Hok | exact I].
    + split; [apply Hok | apply IH, Hk].
  - destruct Hp as [Hok Hk].
    destruct (on_token E t w) as [[v | e] w']; simpl.
    + split; [apply Hok | apply IH, Hk].
    + split; [apply Hok | exact I].
  - destruct Hp as [Hok Hk].
    destruct (on_send E req w) as [[r | e] w']; simpl.
    + split; [apply Hok | apply IH, Hk].
    + split; [apply Hok | exact I].
Qed.


Lemma accepts_at_most (n : nat) (tr : list Event) :
  forall k : nat,
    Accepts (Watch.at_most n) k tr -> (k <= n)%nat -> (k + length (sent tr) <= n)%nat.
Proof.
  induction tr as [| ev tr IH]; intros k Hacc Hk; simpl in *.
  - lia.
  - destruct Hacc as [Hok Hrest].
    destruct ev as [a o | t o | req o]; simpl in *.
    + apply IH; assumption.
    + apply IH; assumption.
    + specialize (IH (S k) Hrest). lia.
Qed.


Lemma delivers_run {A : Type} (Q : Request -> Prop) (p : Prog A) :
  forall (sure : Prop) (E : Env W) (w : W),
    Delivers Q sure p ->
    match outcome (run E p w) with
    | Returns _ =>
        (exists req, last (sent (trace (run E p w))) = Some req /\ Q req)
        \/ (sent (trace (run E p w)) = [] /\ sure)
    | Raises _ => True
    end.
Proof.
  unfold outcome, trace.
  induction p as [a | e | a k IH | t k IH | rq k IH]; intros sure E w Hp; simpl in *.
  - right. split; [reflexivity | exact Hp].
  - exact I.
  - destruct (on_action E a w) as [[e |] w']; simpl; [exact I |].
    apply (IH sure E w' Hp).
  - destruct (on_token E t w) as [[v | e] w']; simpl; [| exact I].
    apply (IH v sure E w' (Hp v)).
  - destruct (on_send E rq w) as [[r | e] w']; simpl; [| exact I].
    specialize (IH r (Q rq) E w' (Hp r)).
    destruct (run E (k r) w') as [[[x | e] w''] tr]; simpl in *; [| exact I].
    left. destruct IH as [[req [Hlast Hq]] | [Hnil Hq]].
    + exists req. split; [| exact Hq].
      rewrite last_cons, Hlast. reflexivity.
    + exists rq. split; [| exact Hq].
      rewrite Hnil. reflexivity.
Qed.

(** A program that delivers from the start has delivered whenever it
    returns. *)
Lemma delivers_delivered {A : Type} (Q : Request -> Prop) (p : Prog A)
    (E : Env W) (w : W) :
  Delivers Q False p -> delivered Q (run E p w).
Proof.
  intros Hp. pose proof (delivers_run Q p False E w Hp) as H.
  unfold delivered. destruct (outcome (run E p w)); [| exact I].
  destruct H as [H | [_ []]]. exact H.
Qed.

End RunFacts.

(** ** The endpoint methods, one by one *)

Section CallFacts.
Variable regions : gmap string Constants.Region.
Variable USERINFO_URL : string.
Variables API_CONTENT API_ACCOUNT_XP API_PERSONALIZATION API_MMR API_HISTORY : string.
Variables API_MATCHES API_LEADERBOARD API_PENALTIES API_CONFIG API_PRICES : string.
Variables API_STORE API_WALLET API_OWNED API_PREGAME_PLAYER API_PREGAME_MATCH : string.
Variables API_CURRENT_GAME_PLAYER API_CURRENT_GAME_MATCH API_ITEM_UPGRADES : string.
Variable API_CONTRACTS : string.

Let call (self : Valorant) (c : Call) : Prog Json :=
  perform API_CONTENT API_ACCOUNT_XP API_PERSONALIZATION API_MMR API_HISTORY
    API_MATCHES API_LEADERBOARD API_PENALTIES API_CONFIG API_PRICES
    API_STORE API_WALLET API_OWNED API_PREGAME_PLAYER API_PREGAME_MATCH
    API_CURRENT_GAME_PLAYER API_CURRENT_GAME_MATCH API_ITEM_UPGRADES API_CONTRACTS
    self c.



Lemma call_tokens_attached (self : Valorant) (c : Call) (s : Watch.Tokens) :
  Obeys Watch.tokens_attached s (call self c).
Proof.
  unfold call. destruct c; walk.
Qed.



Lemma call_delivers (self : Valorant) (c : Call) :
  Delivers (fun req => req <> Watch.version_request) False (call self c).
Proof.
  unfold call. destruct c; walk.
Qed.

End CallFacts.

(** * The claims *)

Section Claims.
Variables API_CONTENT API_ACCOUNT_XP API_PERSONALIZATION API_MMR API_HISTORY : string.
Variables API_MATCHES API_LEADERBOARD API_PENALTIES API_CONFIG API_PRICES : string.
Variables API_STORE API_WALLET API_OWNED API_PREGAME_PLAYER API_PREGAME_MATCH : string.
Variables API_CURRENT_GAME_PLAYER API_CURRENT_GAME_MATCH API_ITEM_UPGRADES : string.
Variable API_CONTRACTS : string.

Let call (self : Valorant) (c : Call) : Prog Json :=
  perform API_CONTENT API_ACCOUNT_XP API_PERSONALIZATION API_MMR API_HISTORY
    API_MATCHES API_LEADERBOARD API_PENALTIES API_CONFIG API_PRICES
    API_STORE API_WALLET API_OWNED API_PREGAME_PLAYER API_PREGAME_MATCH
    API_CURRENT_GAME_PLAYER API_CURRENT_GAME_MATCH API_ITEM_UPGRADES API_CONTRACTS
    self c.



(** C6: in every run of an endpoint method, every request other than the
    lookup of the client version carries an [Authorization] header that is
    ["Bearer "] followed by the access token the [Auth] object handed out
    last, and an [X-Riot-Entitlements-JWT] header that is the entitlement
    token it handed out last; and a call that returns has sent such a
    request last. *)
Theorem routed_calls_attach_tokens (self : Valorant) (c : Call)
    (W : Type) (E : Env W) (w : W) (s : Watch.Tokens) :
  Accepts Watch.tokens_attached s (trace (run E (call self c) w))
  /\ delivered (fun req => req <> Watch.version_request) (run E (call self c) w).
Proof.
  split.
  - apply obeys_accepts, call_tokens_attached.
  - apply delivers_delivered, call_delivers.
Qed.

End Claims.




(** C6 on an example: the request [get_wallet] sends. *)
Example get_wallet_request :
  sent (trace (run (Script.env Script.tokens Script.reply_pregame)
                   (get_wallet Valostore.WALLET Script.self) Script.start))
  = [mkRequest ViaSession GET "https://pd.na1.a.pvp.net/store/v1/wallet//player-1"
       [("X-Riot-Entitlements-JWT", HStr "entitlement-0");
        ("Authorization", HStr "Bearer access-0")]
       None None].
Proof. vm_compute. reflexivity. Qed.

(** C3, as amended: when the geolocation service has answered and the
    answer holds the affinity code [code] under ["affinities"]["live"],
    [get_region] returns the table's entry for [code] if there is one and
    otherwise raises Python's [KeyError] with that code. *)
Theorem get_region_table_lookup (regions : gmap string Constants.Region)
    (W : Type) (E : Env W) (w : W) (req : Request) (r : Response)
    (a aff : Json) (code : string) :
  last (trace (run E (get_region regions) w)) = Some (EvSend req (Returns r)) ->
  json r = Some a ->
  subscript a "affinities" = Returns aff ->
  subscript aff "live" = Returns (JStr code) ->
  outcome (run E (get_region regions) w)
  = match regions !! code with
    | Some reg => Returns reg
    | None => Raises (KeyError (JStr code))
    end.
Proof.
  autounfold with methods; cbn.
  answer E; [| discriminate].
  answer E; [| discriminate].
  answer E; [| discriminate].
  intros Hlast Hjson Haff Hlive.
  destruct (json r0) as [a0 |] eqn:Hj; cbn in *;
    [destruct (subscript a0 "affinities") as [af | e1] eqn:H1; cbn in *;
     [destruct (subscript af "live") as [lv | e2] eqn:H2; cbn in *;
      [destruct (regions_lookup regions lv) as [reg | e3] eqn:H3; cbn in * | ] | ] | ];
    simplify_eq; try congruence.
  all: assert (af = aff) as -> by congruence;
       assert (lv = JStr code) as -> by congruence;
       unfold regions_lookup in H3; destruct (regions !! code); congruence.
Qed.

(** C3, the claim as stated fails: with the table of the spec's example
    and a geolocation answer whose affinity code is not in it,
    [get_region] raises the built-in [KeyError]. *)
Lemma get_region_unknown_code_keyerror :
  outcome (run (Script.env Script.tokens (Script.reply_affinity "xx9"))
               (get_region Script.regions_na1) Script.start)
  = Raises (KeyError (JStr "xx9")).
Proof. vm_compute. reflexivity. Qed.

Lemma get_region_table_lookup_witness :
  outcome (run (Script.env Script.tokens (Script.reply_affinity "na1"))
               (get_region Script.regions_na1) Script.start)
  = match Script.regions_na1 !! "na1" with
    | Some reg => Returns reg
    | None => Raises (KeyError (JStr "na1"))
    end.
Proof.
  eapply (get_region_table_lookup Script.regions_na1 Script.World
            (Script.env Script.tokens (Script.reply_affinity "na1")) Script.start).
  - vm_compute. reflexivity.
  - reflexivity.
  - reflexivity.
  - reflexivity.
Defined.

(** C5: the two base URLs are a function of the region and shard codes
    alone, and building them sends nothing: a client that [__init__] has
    finished building holds exactly the URLs composed from its region, and
    the requests of the whole construction are the version lookup, the
    geolocation call and the user-info call. *)
Theorem base_urls_pure (regions : gmap string Constants.Region) (USERINFO_URL : string)
    (W : Type) (E : Env W) (w : W) (username password : string) (self : Valorant)
    (r1 r2 : Constants.Region) :
  Constants.region r1 = Constants.region r2 ->
  Constants.shard r1 = Constants.shard r2 ->
  outcome (run E (init regions USERINFO_URL username password) w) = Returns self ->
  (pd_server_of r1, glz_server_of r1) = (pd_server_of r2, glz_server_of r2)
  /\ (pd_server self, glz_server self)
     = (pd_server_of (region self), glz_server_of (region self))
  /\ map url (sent (trace (run E (init regions USERINFO_URL username password) w)))
     = [VERSION_URL; GEO_URL; USERINFO_URL].
Proof.
  intros Hr Hs Hinit. split.
  - unfold pd_server_of, glz_server_of. rewrite Hr, Hs. reflexivity.
  - revert Hinit. autounfold with methods; cbn.
    repeat first
      [ answer E
      | match goal with
        | |- context [match ?x with _ => _ end] => destruct x eqn:?; cbn
        end ];
      intros Hret; try discriminate Hret.
    all: injection Hret as <-; cbn; split; reflexivity.
Qed.

Lemma base_urls_pure_witness :
  (pd_server_of (Constants.mkRegion "na1" "na1"), glz_server_of (Constants.mkRegion "na1" "na1"))
  = (pd_server_of (Constants.mkRegion "na1" "na1"), glz_server_of (Constants.mkRegion "na1" "na1"))
  /\ (pd_server Script.self, glz_server Script.self)
     = (pd_server_of (region Script.self), glz_server_of (region Script.self))
  /\ map url (sent (trace (run (Script.env Script.tokens (Script.reply_affinity "na1"))
                               (init Script.regions_na1 Valostore.USERINFO_URL "user" "secret")
                               Script.start)))
     = [VERSION_URL; GEO_URL; Valostore.USERINFO_URL].
Proof.
  apply (base_urls_pure Script.regions_na1 Valostore.USERINFO_URL Script.World
           (Script.env Script.tokens (Script.reply_affinity "na1")) Script.start
           "user" "secret" Script.self
           (Constants.mkRegion "na1" "na1") (Constants.mkRegion "na1" "na1")).
  - reflexivity.
  - reflexivity.
  - vm_compute. reflexivity.
Defined.

(** C2: for the region whose region code and shard code are both [na1],
    the account base URL is [https://pd.na1.a.pvp.net] and the live base
    URL is [https://glz-na1-1.na1.a.pvp.net]. *)
Theorem na1_base_urls :
  pd_server_of (Constants.mkRegion "na1" "na1") = "https://pd.na1.a.pvp.net"
  /\ glz_server_of (Constants.mkRegion "na1" "na1") = "https://glz-na1-1.na1.a.pvp.net".
Proof. split; reflexivity. Qed.

(** C7: [client_platform] is the same byte string on every client and at
    every evaluation: the base64 form of the JSON text of the fixed
    Windows PC platform object. *)
Theorem client_platform_constant (self : Valorant) :
  client_platform self
  = "eyJwbGF0Zm9ybVR5cGUiOiAiUEMiLCAicGxhdGZvcm1PUyI6ICJXaW5kb3dzIiwgInBsYXRmb3JtT1NWZXJzaW9uIjogIjEwLjAuMTkwNDIuMS4yNTYuNjRiaXQiLCAicGxhdGZvcm1DaGlwc2V0IjogIlVua25vd24ifQ=="
  /\ client_platform self = b64encode (encode_utf8 (json_dumps platform))
  /\ forall other : Valorant, client_platform other = client_platform self.
Proof.
  split; [vm_compute; reflexivity | split; [reflexivity | intros other; reflexivity]].
Qed.

(** C8: when [username] is [None] or empty, the URL [get_leaderboard]
    builds is the empty string; in every run every request it sends, apart
    from the lookup of the client version, goes to that empty URL, and a
    call that returns has sent its last request there. *)
Theorem get_leaderboard_falsy_username_empty_url (API_LEADERBOARD : string)
    (self : Valorant) (season_id : string) (start amount : Z) (username : option string)
    (W : Type) (E : Env W) (w : W) :
  truthy username = false ->
  leaderboard_url API_LEADERBOARD self season_id start amount username = ""
  /\ Accepts (Watch.only_url "") tt
       (trace (run E (get_leaderboard API_LEADERBOARD self season_id start amount username) w))
  /\ delivered (fun req => url req = "")
       (run E (get_leaderboard API_LEADERBOARD self season_id start amount username) w).
Proof.
  intros Hfalsy.
  assert (Hurl : leaderboard_url API_LEADERBOARD self season_id start amount username = "").
  { unfold leaderboard_url. rewrite Hfalsy. reflexivity. }
  split; [exact Hurl | split].
  - apply obeys_accepts. unfold get_leaderboard. rewrite Hurl. walk.
  - apply delivers_delivered. unfold get_leaderboard. rewrite Hurl. walk.
Qed.

Lemma get_leaderboard_falsy_username_witness :
  (leaderboard_url Script.LEADERBOARD Script.self "season-1" 0 510 None = ""
   /\ Accepts (Watch.only_url "") tt
        (trace (run (Script.env Script.tokens Script.reply_pregame)
                    (get_leaderboard Script.LEADERBOARD Script.self "season-1" 0 510 None)
                    Script.start))
   /\ delivered (fun req => url req = "")
        (run (Script.env Script.tokens Script.reply_pregame)
             (get_leaderboard Script.LEADERBOARD Script.self "season-1" 0 510 None)
             Script.start))
  /\ map url (sent (trace (run (Script.env Script.tokens Script.reply_pregame)
                               (get_leaderboard Script.LEADERBOARD Script.self "season-1" 0 510 None)
                               Script.start)))
     = [VERSION_URL; ""].
Proof.
  split.
  - apply (get_leaderboard_falsy_username_empty_url Script.LEADERBOARD Script.self
             "season-1" 0 510 None Script.World
             (Script.env Script.tokens Script.reply_pregame) Script.start).
    reflexivity.
  - vm_compute. reflexivity.
Defined.


(** The URLs of C9 on an example: the player lookup answers with a dict
    that names match [m-1]. *)
Example select_agent_url_holds_dict :
  map url (sent (trace (run (Script.env Script.tokens Script.reply_pregame)
                            (select_agent Script.MATCHES Script.PREGAME_PLAYER Script.self
                               "agent-7" None)
                            Script.start)))
  = ["https://glz-na1-1.na1.a.pvp.net/pregame/v1/players/player-1";
     "https://glz-na1-1.na1.a.pvp.net/match-details/v1/matches/{'Subject': 'player-1', 'MatchID': 'm-1'}/select/agent-7"].
Proof. vm_compute. reflexivity. Qed.

Example get_pregame_match_url_holds_match_id :
  map url (sent (trace (run (Script.env Script.tokens Script.reply_pregame)
                            (get_pregame_match Script.PREGAME_PLAYER Script.PREGAME_MATCH
                               Script.self None)
                            Script.start)))
  = ["https://glz-na1-1.na1.a.pvp.net/pregame/v1/players/player-1";
     "https://glz-na1-1.na1.a.pvp.net/pregame/v1/matches/m-1"].
Proof. vm_compute. reflexivity. Qed.

(** C10: [xmpp_regions] and [xmpp_servers] have the same keys, so a code
    has a chat region exactly when it has a chat server.  Neither literal
    repeats a key, so each table holds all 24 of its items. *)
Theorem xmpp_tables_same_keys :
  dom Valostore.xmpp_regions = dom Valostore.xmpp_servers
  /\ (forall code : string,
        is_Some (Valostore.xmpp_regions !! code) <-> is_Some (Valostore.xmpp_servers !! code))
  /\ NoDup (Valostore.xmpp_regions_items.*1)
  /\ NoDup (Valostore.xmpp_servers_items.*1).
Proof.
  assert (Hdom : dom Valostore.xmpp_regions = dom Valostore.xmpp_servers).
  { unfold Valostore.xmpp_regions, Valostore.xmpp_servers.
    rewrite !dom_list_to_map_L. reflexivity. }
  split; [exact Hdom | split; [| split]].
  - intros code. rewrite <- !elem_of_dom, Hdom. reflexivity.
  - apply (bool_decide_unpack _). vm_compute. reflexivity.
  - apply (bool_decide_unpack _). vm_compute. reflexivity.
Qed.

(** * Further properties of the client *)

Import PyObj.

(** ** The player filter of [get_border_level] *)

(** X18: one player entry without a ["subject"] spoils the whole filter:
    when the entries before it can all be subscripted, the filter raises
    what that entry raises, also when the wanted player came before it. *)
Theorem filter_subject_raises_on_any_bad_entry (player_id : Json)
    (before after : list Json) (bad : Json) (e : PyExn) :
  Forall (fun x => exists s, subscript x "subject" = Returns s) before ->
  subscript bad "subject" = Raises e ->
  filter_subject player_id (before ++ bad :: after) = Raises e.
Proof.
  intros Hbefore Hbad.
  induction Hbefore as [| x rest [s Hs] _ IH]; simpl.
  - rewrite Hbad. reflexivity.
  - rewrite Hs, IH. reflexivity.
Qed.

Lemma filter_subject_raises_on_any_bad_entry_witness :
  filter_subject (JStr "player-1")
    ([JDict [("subject", JStr "player-1")]] ++ JStr "junk" :: [])
  = Raises TypeError.
Proof.
  apply filter_subject_raises_on_any_bad_entry.
  - repeat constructor. exists (JStr "player-1"). reflexivity.
  - reflexivity.
Defined.

(** What the filter keeps are dicts whose ["subject"] equals the player
    id, in the order they came. *)
Lemma filter_subject_keeps (player_id : Json) (players : list Json) :
  forall kept,
    filter_subject player_id players = Returns kept ->
    Forall (fun x => Observe.is_dict x = true
                     /\ exists s, subscript x "subject" = Returns s
                                  /\ py_eq s player_id = true) kept
    /\ sublist kept players.
Proof.
  induction players as [| x rest IH]; intros kept Hkept; simpl in Hkept.
  - injection Hkept as <-. split; constructor.
  - destruct (subscript x "subject") as [s | e] eqn:Hs; [| discriminate].
    destruct (filter_subject player_id rest) as [kept' | e]; [| discriminate].
    destruct (IH kept' eq_refl) as [Hall Hsub].
    destruct (py_eq s player_id) eqn:Heq; injection Hkept as <-.
    + split; [| constructor; exact Hsub].
      constructor; [| exact Hall]. split.
      * destruct x; try discriminate Hs. reflexivity.
      * exists s. split; [exact Hs | exact Heq].
    + split; [exact Hall | constructor; exact Hsub].
Qed.

#[local] Hint Unfold
  Border.get_border_level Border.get_match_history_obj Border.get_match_details_obj
  Border.or_sub_obj : methods.

#[local] Arguments item0 : simpl never.
#[local] Arguments iterate : simpl never.
#[local] Arguments filter_subject : simpl never.
#[local] Arguments get_or : simpl never.

(** Splits a run on every answer and on every value the body inspects. *)
Ltac run_cases E :=
  repeat first
    [ answer E
    | match goal with
      | |- context [match ?x with _ => _ end] => destruct x eqn:?; cbn
      end ].

(** Brings two equations on one term together. *)
Ltac same_term :=
  repeat match goal with
    | H1 : ?t = _, H2 : ?t = _ |- _ => rewrite H1 in H2; simplify_eq
    end.

Lemma repr_of_client_platform (self : Valorant) :
  repr_bytes (client_platform self)
  = "b" +:+ String squote (client_platform self +:+ String squote "").
Proof. vm_compute. reflexivity. Qed.

Section Calls.
Variables API_CONTENT API_ACCOUNT_XP API_PERSONALIZATION API_MMR API_HISTORY : string.
Variables API_MATCHES API_LEADERBOARD API_PENALTIES API_CONFIG API_PRICES : string.
Variables API_STORE API_WALLET API_OWNED API_PREGAME_PLAYER API_PREGAME_MATCH : string.
Variables API_CURRENT_GAME_PLAYER API_CURRENT_GAME_MATCH API_ITEM_UPGRADES : string.
Variable API_CONTRACTS : string.

Let call (self : Valorant) (c : Call) : Prog Json :=
  perform API_CONTENT API_ACCOUNT_XP API_PERSONALIZATION API_MMR API_HISTORY
    API_MATCHES API_LEADERBOARD API_PENALTIES API_CONFIG API_PRICES
    API_STORE API_WALLET API_OWNED API_PREGAME_PLAYER API_PREGAME_MATCH
    API_CURRENT_GAME_PLAYER API_CURRENT_GAME_MATCH API_ITEM_UPGRADES API_CONTRACTS
    self c.

(** X1: a call that needs the id of the user ends at once when
    [user_info] cannot give it: it raises what [user_info["sub"]] raises,
    having fetched no token and sent nothing. *)
Theorem missing_sub_stops_before_any_effect (self : Valorant) (c : Call)
    (W : Type) (E : Env W) (w : W) (e : PyExn) :
  Observe.needs_sub c = true ->
  subscript (user_info self) "sub" = Raises e ->
  run E (call self c) w = (Raises e, w, []).
Proof.
  intros Hc Hsub. unfold call.
  destruct c as [ | | | ? | [?|] | [?|] ? ? | ? | ? ? ? ? | | | | | | ? | [?|] | [?|] | [?|]
                | ? [?|] | ? [?|] | [?|] | [?|] | [?|] | [?|] | | [?|] ];
    try discriminate Hc; autounfold with methods; cbn; rewrite Hsub; reflexivity.
Qed.

(** X2: a call that names its player or match does not read [user_info]:
    it is the same program on a client that differs in [user_info] alone. *)
Theorem explicit_ids_ignore_user_info (self : Valorant) (info : Json) (c : Call) :
  Observe.needs_sub c = false ->
  call (Observe.with_user_info self info) c = call self c.
Proof.
  intros Hc. unfold call.
  destruct c as [ | | | ? | [?|] | [?|] ? ? | ? | ? ? ? ? | | | | | | ? | [?|] | [?|] | [?|]
                | ? [?|] | ? [?|] | [?|] | [?|] | [?|] | [?|] | | [?|] ];
    try discriminate Hc; reflexivity.
Qed.

(** X3: [get_store] is the one method that sends its request with the
    [requests] module; every other method sends it through the session. *)
Theorem only_get_store_bypasses_session (self : Valorant) (c : Call)
    (W : Type) (E : Env W) (w : W) :
  Accepts (Observe.sent_by (if Observe.is_get_store c then ViaRequests else ViaSession)) tt
    (trace (run E (call self c) w)).
Proof.
  apply obeys_accepts. unfold call. destruct c; walk.
Qed.

(** X5: [get_content] sends the text Python prints for the bytes of the
    platform tag, quotes and prefix included; [get_player_mmr],
    [get_penalties] and [get_store] send the bytes themselves; no other
    method sends the header. *)
Theorem platform_header_by_method (self : Valorant) (c : Call)
    (W : Type) (E : Env W) (w : W) :
  Accepts (Observe.header_is "X-Riot-ClientPlatform" (Observe.platform_header self c)) tt
    (trace (run E (call self c) w)).
Proof.
  apply obeys_accepts. unfold call.
  destruct c; autounfold with methods; rewrite ?repr_of_client_platform; walk.
Qed.

(** X8: no endpoint method sets a timeout on its own request; the lookup
    of the client version is the only request with one. *)
Theorem endpoint_requests_have_no_timeout (self : Valorant) (c : Call)
    (W : Type) (E : Env W) (w : W) :
  Accepts Observe.no_timeout tt (trace (run E (call self c) w))
  /\ timeout Watch.version_request = Some 30.
Proof.
  split; [| reflexivity].
  apply obeys_accepts. unfold call. destruct c; walk.
Qed.

(** X7: a method whose headers hold the client version contacts its
    endpoint only after the version lookup has answered with a body that
    holds [["data"]["riotClientVersion"]]. *)
Theorem version_lookup_gates_endpoint (self : Valorant) (c : Call)
    (W : Type) (E : Env W) (w : W) :
  Observe.uses_version c = true ->
  Accepts Observe.version_first false (trace (run E (call self c) w)).
Proof.
  intros Hc. apply obeys_accepts. unfold call.
  destruct c; try discriminate Hc; autounfold with methods; cbn;
    repeat (walk_step; cbn; try unfold Observe.has_version).
Qed.

(** X20: when what [get_pregame_id] returns has no ["MatchID"] (the
    player is in no pre-game), a method that takes the match id out of it
    raises what that subscript raises, and the player lookup stays its
    only request. *)
Theorem missing_match_id_stops_after_lookup (self : Valorant) (c : Call)
    (W : Type) (E : Env W) (w : W) (r : Response) (d : Json) (e : PyExn) :
  Observe.reads_match_id c = true ->
  head (Observe.answers (trace (run E (call self c) w))) = Some r ->
  json r = Some d ->
  subscript d "MatchID" = Raises e ->
  outcome (run E (call self c) w) = Raises e
  /\ length (sent (trace (run E (call self c) w))) = 1%nat.
Proof.
  intros Hc Hfirst Hjson Hmatch. revert Hfirst. unfold call.
  destruct c as [ | | | ? | [?|] | [?|] ? ? | ? | ? ? ? ? | | | | | | ? | [?|] | [?|] | [?|]
                | ? [?|] | ? [?|] | [?|] | [?|] | [?|] | [?|] | | [?|] ];
    try discriminate Hc; autounfold with methods; cbn;
    run_cases E; intros Hfirst; simplify_eq; same_term; try congruence.
  all: split; reflexivity.
Qed.


End Calls.

(** X4: [set_loadout] puts the loadout it is given, as it is, and never
    reads the response: once the response is in, whatever its status and
    body, the method returns [None]. *)
Theorem set_loadout_ignores_response (API_PERSONALIZATION : string) (self : Valorant)
    (loadout : Json) (W : Type) (E : Env W) (w : W) (req : Request) (r : Response) :
  last (trace (run E (set_loadout API_PERSONALIZATION self loadout) w))
    = Some (EvSend req (Returns r)) ->
  outcome (run E (set_loadout API_PERSONALIZATION self loadout) w) = Returns tt
  /\ verb req = PUT /\ json_arg req = Some loadout.
Proof.
  autounfold with methods; cbn.
  destruct (subscript (user_info self) "sub") as [sub | e]; cbn; [| discriminate].
  answer E; [| discriminate].
  answer E; [| discriminate].
  answer E; [| discriminate].
  intros Hlast. injection Hlast as <- _. repeat split.
Qed.

Lemma set_loadout_ignores_response_witness :
  outcome (run (Script.env Script.tokens Script.reply_not_json)
               (set_loadout Script.PERSONALIZATION Script.self (JDict [("Guns", JList [])]))
               Script.start)
  = Returns tt.
Proof.
  eapply (set_loadout_ignores_response Script.PERSONALIZATION Script.self
            (JDict [("Guns", JList [])]) Script.World
            (Script.env Script.tokens Script.reply_not_json) Script.start).
  vm_compute. reflexivity.
Defined.

(** X6: [get_current_game_player] prints the URL before anything else:
    no token is fetched before the print, and the request goes to exactly
    the URL that was printed. *)
Theorem get_current_game_player_prints_its_url (API_CURRENT_GAME_PLAYER : string)
    (self : Valorant) (player_id : option string) (W : Type) (E : Env W) (w : W) :
  Accepts Observe.printed_first None
    (trace (run E (get_current_game_player API_CURRENT_GAME_PLAYER self player_id) w)).
Proof.
  apply obeys_accepts.
  autounfold with methods; cbn; repeat (walk_step; cbn; try unfold is_Some).
Qed.


(** What the table lookup returns is an entry of the table. *)
Lemma regions_lookup_entry (regions : gmap string Constants.Region) (v : Json)
    (reg : Constants.Region) :
  regions_lookup regions v = Returns reg -> exists code, regions !! code = Some reg.
Proof.
  unfold regions_lookup. intros Hlookup.
  destruct v; try discriminate Hlookup.
  destruct (regions !! s) as [entry |] eqn:Hentry; [| discriminate Hlookup].
  injection Hlookup as <-. exists s. exact Hentry.
Qed.

(** X10: whatever [get_region] returns is an entry of the region table. *)
Theorem get_region_returns_table_entry (regions : gmap string Constants.Region)
    (W : Type) (E : Env W) (w : W) (reg : Constants.Region) :
  outcome (run E (get_region regions) w) = Returns reg ->
  exists code, regions !! code = Some reg.
Proof.
  autounfold with methods; cbn.
  answer E; [| discriminate].
  answer E; [| discriminate].
  answer E; [| discriminate].
  destruct (json r) as [a |]; cbn; [| discriminate].
  destruct (subscript a "affinities") as [aff | e1]; cbn; [| discriminate].
  destruct (subscript aff "live") as [live | e2]; cbn; [| discriminate].
  destruct (regions_lookup regions live) as [found | e3] eqn:Hlookup; cbn; [| discriminate].
  intros Hret. injection Hret as <-.
  eapply regions_lookup_entry, Hlookup.
Qed.

Lemma get_region_returns_table_entry_witness :
  exists code, Script.regions_na1 !! code = Some (Constants.mkRegion "na1" "na1").
Proof.
  eapply (get_region_returns_table_entry Script.regions_na1 Script.World
            (Script.env Script.tokens (Script.reply_affinity "na1")) Script.start).
  vm_compute. reflexivity.
Defined.

(** X11: a client that [__init__] has finished building has a region
    taken from the region table, and its [user_info] is the decoded body
    of the last response the construction received. *)
Theorem init_builds_client_from_replies (regions : gmap string Constants.Region)
    (USERINFO_URL username password : string) (W : Type) (E : Env W) (w : W)
    (self : Valorant) :
  outcome (run E (init regions USERINFO_URL username password) w) = Returns self ->
  (exists code, regions !! code = Some (region self))
  /\ exists r,
       last (Observe.answers (trace (run E (init regions USERINFO_URL username password) w)))
         = Some r
       /\ json r = Some (user_info self).
Proof.
  autounfold with methods; cbn.
  repeat first
    [ answer E
    | match goal with
      | |- context [match ?x with _ => _ end] => destruct x eqn:?; cbn
      end ];
    intros Hret; try discriminate Hret.
  all: injection Hret as <-; cbn; split;
    [ eapply regions_lookup_entry; eassumption
    | eexists; split; [reflexivity | eassumption] ].
Qed.

Lemma init_builds_client_from_replies_witness :
  (exists code, Script.regions_na1 !! code = Some (region Script.self))
  /\ exists r,
       last (Observe.answers
               (trace (run (Script.env Script.tokens (Script.reply_affinity "na1"))
                           (init Script.regions_na1 Valostore.USERINFO_URL "user" "secret")
                           Script.start)))
         = Some r
       /\ json r = Some (user_info Script.self).
Proof.
  apply (init_builds_client_from_replies Script.regions_na1 Valostore.USERINFO_URL
           "user" "secret" Script.World
           (Script.env Script.tokens (Script.reply_affinity "na1")) Script.start Script.self).
  vm_compute. reflexivity.
Defined.




(** ** get_border_level *)

Lemma env_raised_cons (ev : Event) (tr : list Event) (e : PyExn) :
  Observe.env_raised tr = Some e -> Observe.env_raised (ev :: tr) = Some e.
Proof.
  unfold Observe.env_raised. rewrite last_cons.
  destruct (last tr) as [ev' |]; [intros H; exact H | discriminate].
Qed.

(** When a program that never raises [e] ends with [e], the environment
    raised it. *)
Lemma avoids_run {W A : Type} (e : PyExn) (p : Prog A) :
  forall (E : Env W) (w : W),
    Observe.Avoids e p ->
    outcome (run E p w) = Raises e ->
    Observe.env_raised (trace (run E p w)) = Some e.
Proof.
  unfold outcome, trace.
  induction p as [a | e' | a k IH | t k IH | rq k IH]; intros E w Hp Hout; simpl in *.
  - discriminate.
  - injection Hout as ->. contradiction.
  - destruct (on_action E a w) as [[e0 |] w']; simpl in *.
    + injection Hout as ->. reflexivity.
    + apply env_raised_cons, IH; assumption.
  - destruct (on_token E t w) as [[v | e0] w']; simpl in *.
    + apply env_raised_cons, IH; [apply Hp | assumption].
    + injection Hout as ->. reflexivity.
  - destruct (on_send E rq w) as [[r | e0] w']; simpl in *.
    + apply env_raised_cons, IH; [apply Hp | assumption].
    + injection Hout as ->. reflexivity.
Qed.

Lemma subscript_error (v : Json) (k : string) (e : PyExn) :
  subscript v k = Raises e -> e = TypeError \/ e = KeyError (JStr k).
Proof.
  unfold subscript. destruct v; try (intros H; injection H as <-; left; reflexivity).
  destruct (dict_get k kvs); [discriminate |].
  intros H; injection H as <-. right. reflexivity.
Qed.

Lemma filter_subject_error (player_id : Json) (players : list Json) (e : PyExn) :
  filter_subject player_id players = Raises e ->
  e = TypeError \/ e = KeyError (JStr "subject").
Proof.
  induction players as [| x rest IH]; unfold filter_subject; fold filter_subject.
  - discriminate.
  - destruct (subscript x "subject") as [s | e0] eqn:Hs.
    + destruct (filter_subject player_id rest) as [kept | e0]; [discriminate |].
      intros H; injection H as <-. apply IH. reflexivity.
    + intros H; injection H as <-. eapply subscript_error, Hs.
Qed.

(** The first of the players the filter kept is a dict, so [.get] works
    on it. *)
Lemma get_or_on_kept (player_id : Json) (players found : list Json) (player : Json) :
  filter_subject player_id players = Returns found ->
  item0 (JList found) = Returns player ->
  get_or player "preferredLevelBorder" (JStr Border.DEFAULT_BORDER)
  = Returns (Observe.border_of player).
Proof.
  intros Hfound Hfirst.
  destruct (filter_subject_keeps _ _ _ Hfound) as [Hall _].
  destruct found as [| x rest]; [discriminate Hfirst |].
  unfold item0 in Hfirst. injection Hfirst as ->.
  inversion Hall as [| ? ? [Hdict _] _]; subst.
  destruct player; try discriminate Hdict. reflexivity.
Qed.

Section BorderLevel.
Variables API_HISTORY API_MATCHES : string.

Let border (self : Valorant) (player_id : option string) : Prog Json :=
  Border.get_border_level API_HISTORY API_MATCHES self player_id.

(** X13: [get_border_level] sends at most three requests.  Each either
    carries the two tokens handed out last, or is the bare [requests.get]
    of a level border, which has no headers at all: no token goes to the
    level-border service. *)
Theorem get_border_level_requests (self : Valorant) (player_id : option string)
    (W : Type) (E : Env W) (w : W) (s : Watch.Tokens) :
  Accepts Observe.tokens_or_public s (trace (run E (border self player_id) w))
  /\ (length (sent (trace (run E (border self player_id) w))) <= 3)%nat.
Proof.
  split.
  - apply obeys_accepts. unfold border. autounfold with methods; cbn.
    repeat (first
      [ match goal with
        | |- (_ /\ _) \/ _ =>
            first [ left; split; [reflexivity | split; [reflexivity | eexists; reflexivity]]
                  | right ]
        end
      | walk_step ]; cbn).
  - assert (Hacc : Accepts (Watch.at_most 3) 0%nat (trace (run E (border self player_id) w))).
    { apply obeys_accepts. unfold border. walk. }
    apply accepts_at_most in Hacc; lia.
Qed.

(** X17: [get_border_level] never raises [AttributeError] itself: the
    player it calls [.get] on passed the filter, so it is a dict.  A run
    that ends with that exception got it from the environment. *)
Theorem get_border_level_no_attribute_error (self : Valorant) (player_id : option string)
    (W : Type) (E : Env W) (w : W) :
  outcome (run E (border self player_id) w) = Raises (OtherError "AttributeError") ->
  Observe.env_raised (trace (run E (border self player_id) w))
  = Some (OtherError "AttributeError").
Proof.
  apply avoids_run. unfold border. walk.
  all: try match goal with
    | H : subscript _ _ = Raises ?e |- ?e <> _ =>
        destruct (subscript_error _ _ _ H) as [-> | ->]; discriminate
    | H : filter_subject _ _ = Raises ?e |- ?e <> _ =>
        destruct (filter_subject_error _ _ _ H) as [-> | ->]; discriminate
    | H : item0 _ = Raises ?e |- ?e <> _ =>
        unfold item0 in H; repeat case_match; simplify_eq; discriminate
    | H : iterate _ = Raises ?e |- ?e <> _ =>
        unfold iterate in H; repeat case_match; simplify_eq; discriminate
    | Hf : filter_subject _ _ = Returns ?found, Hi : item0 (JList ?found) = Returns ?p,
      Hg : get_or ?p _ _ = Raises _ |- _ =>
        rewrite (get_or_on_kept _ _ _ _ Hf Hi) in Hg; discriminate Hg
    end.
Qed.

(** X14: when the history that comes back is empty, [get_border_level]
    raises [IndexError] and the history request stays its only request. *)
Theorem get_border_level_empty_history (self : Valorant) (player_id : option string)
    (W : Type) (E : Env W) (w : W) (r : Response) (h : Json) :
  head (Observe.answers (trace (run E (border self player_id) w))) = Some r ->
  json r = Some h ->
  subscript h "History" = Returns (JList []) ->
  outcome (run E (border self player_id) w) = Raises (OtherError "IndexError")
  /\ length (sent (trace (run E (border self player_id) w))) = 1%nat.
Proof.
  intros Hfirst Hjson Hhistory. revert Hfirst.
  unfold border. autounfold with methods; cbn.
  run_cases E; intros Hfirst; simplify_eq; same_term;
    try (unfold item0 in *; simplify_eq); try congruence.
  all: split; reflexivity.
Qed.



End BorderLevel.

Lemma missing_sub_witness :
  run (Script.env Script.tokens Script.reply_pregame)
      (perform Valostore.CONTENT Valostore.ACCOUNT_XP Script.PERSONALIZATION Valostore.MMR
         Script.HISTORY Script.MATCHES Script.LEADERBOARD Script.PENALTIES Script.CONFIG
         Valostore.PRICES Valostore.STORE Valostore.WALLET Valostore.OWNED
         Script.PREGAME_PLAYER Script.PREGAME_MATCH Script.CURRENT_GAME_PLAYER
         Script.CURRENT_GAME_MATCH Script.ITEM_UPGRADES Script.CONTRACTS
         Play.nobody CGetWallet)
      Script.start
  = (Raises (KeyError (JStr "sub")), Script.start, []).
Proof.
  apply missing_sub_stops_before_any_effect; reflexivity.
Defined.

Lemma explicit_ids_witness :
  perform Valostore.CONTENT Valostore.ACCOUNT_XP Script.PERSONALIZATION Valostore.MMR
    Script.HISTORY Script.MATCHES Script.LEADERBOARD Script.PENALTIES Script.CONFIG
    Valostore.PRICES Valostore.STORE Valostore.WALLET Valostore.OWNED
    Script.PREGAME_PLAYER Script.PREGAME_MATCH Script.CURRENT_GAME_PLAYER
    Script.CURRENT_GAME_MATCH Script.ITEM_UPGRADES Script.CONTRACTS
    (Observe.with_user_info Script.self JNull) (CGetMatchDetails "m-9")
  = perform Valostore.CONTENT Valostore.ACCOUNT_XP Script.PERSONALIZATION Valostore.MMR
      Script.HISTORY Script.MATCHES Script.LEADERBOARD Script.PENALTIES Script.CONFIG
      Valostore.PRICES Valostore.STORE Valostore.WALLET Valostore.OWNED
      Script.PREGAME_PLAYER Script.PREGAME_MATCH Script.CURRENT_GAME_PLAYER
      Script.CURRENT_GAME_MATCH Script.ITEM_UPGRADES Script.CONTRACTS
      Script.self (CGetMatchDetails "m-9").
Proof.
  apply explicit_ids_ignore_user_info. reflexivity.
Defined.

Lemma version_lookup_gates_endpoint_witness :
  Accepts Observe.version_first false
    (trace (run (Script.env Script.tokens Script.reply_pregame)
                (Script.call CGetContent) Script.start)).
Proof.
  apply (version_lookup_gates_endpoint
           Valostore.CONTENT Valostore.ACCOUNT_XP Script.PERSONALIZATION Valostore.MMR
           Script.HISTORY Script.MATCHES Script.LEADERBOARD Script.PENALTIES Script.CONFIG
           Valostore.PRICES Valostore.STORE Valostore.WALLET Valostore.OWNED
           Script.PREGAME_PLAYER Script.PREGAME_MATCH Script.CURRENT_GAME_PLAYER
           Script.CURRENT_GAME_MATCH Script.ITEM_UPGRADES Script.CONTRACTS
           Script.self CGetContent).
  reflexivity.
Defined.

Lemma missing_match_id_witness :
  outcome (run (Script.env Script.tokens
                  (fun _ _ => Returns (mkResponse 404 (Some Script.unauthorized_body))))
               (Script.call (CGetPregameMatch None)) Script.start)
  = Raises (KeyError (JStr "MatchID"))
  /\ length (sent (trace (run (Script.env Script.tokens
                                 (fun _ _ => Returns (mkResponse 404
                                                        (Some Script.unauthorized_body))))
                              (Script.call (CGetPregameMatch None)) Script.start)))
     = 1%nat.
Proof.
  eapply (missing_match_id_stops_after_lookup
            Valostore.CONTENT Valostore.ACCOUNT_XP Script.PERSONALIZATION Valostore.MMR
            Script.HISTORY Script.MATCHES Script.LEADERBOARD Script.PENALTIES Script.CONFIG
            Valostore.PRICES Valostore.STORE Valostore.WALLET Valostore.OWNED
            Script.PREGAME_PLAYER Script.PREGAME_MATCH Script.CURRENT_GAME_PLAYER
            Script.CURRENT_GAME_MATCH Script.ITEM_UPGRADES Script.CONTRACTS
            Script.self (CGetPregameMatch None)).
  - reflexivity.
  - vm_compute. reflexivity.
  - reflexivity.
  - reflexivity.
Defined.


Lemma get_border_level_empty_history_witness :
  outcome (run (Script.env Script.tokens
                  (Play.reply_in_turn Play.empty_history_body Play.details_body))
               (Border.get_border_level Script.HISTORY Script.MATCHES Script.self
                  (Some "player-1"))
               Script.start)
  = Raises (OtherError "IndexError")
  /\ length (sent (trace (run (Script.env Script.tokens
                                 (Play.reply_in_turn Play.empty_history_body Play.details_body))
                              (Border.get_border_level Script.HISTORY Script.MATCHES Script.self
                                 (Some "player-1"))
                              Script.start)))
     = 1%nat.
Proof.
  eapply (get_border_level_empty_history Script.HISTORY Script.MATCHES Script.self
            (Some "player-1") Script.World
            (Script.env Script.tokens
               (Play.reply_in_turn Play.empty_history_body Play.details_body))
            Script.start).
  - vm_compute. reflexivity.
  - reflexivity.
  - reflexivity.
Defined.



Lemma get_border_level_no_attribute_error_witness :
  Observe.env_raised
    (trace (run (Script.env Script.tokens (Play.reply_raises "AttributeError"))
                (Border.get_border_level Script.HISTORY Script.MATCHES Script.self None)
                Script.start))
  = Some (OtherError "AttributeError").
Proof.
  apply get_border_level_no_attribute_error.
  vm_compute. reflexivity.
Defined.

(** ** The chat tables *)

Lemma lookup_list_to_map_dict_get (items : list (string * string)) (k : string) :
  (list_to_map items : gmap string string) !! k = dict_get k items.
Proof.
  induction items as [| [k' v] rest IH]; simpl.
  - apply lookup_empty.
  - destruct (String.eqb k k') eqn:Hk.
    + apply String.eqb_eq in Hk. subst k'. apply lookup_insert_eq.
    + apply String.eqb_neq in Hk. rewrite lookup_insert_ne by congruence. exact IH.
Qed.

Lemma dict_get_elem_of (items : list (string * string)) (k v : string) :
  dict_get k items = Some v -> (k, v) ∈ items.
Proof.
  induction items as [| [k' v'] rest IH]; simpl; [discriminate |].
  destruct (String.eqb k k') eqn:Hk.
  - apply String.eqb_eq in Hk. intros H; injection H as <-. subst k'. left.
  - intros H. right. exact (IH H).
Qed.

Lemma xmpp_row (code region server : string) :
  Valostore.xmpp_regions !! code = Some region ->
  Valostore.xmpp_servers !! code = Some server ->
  (code, region, server) ∈ Observe.xmpp_rows.
Proof.
  unfold Valostore.xmpp_regions, Valostore.xmpp_servers.
  rewrite !lookup_list_to_map_dict_get. intros Hregion Hserver.
  apply list_elem_of_omap. exists (code, region). split.
  - apply dict_get_elem_of, Hregion.
  - cbn [fst snd]. rewrite Hserver. reflexivity.
Qed.

Lemma xmpp_rows_checked :
  forallb (fun x : string * string * string =>
             forallb (fun y : string * string * string =>
                        Bool.eqb (String.eqb x.1.2 y.1.2) (String.eqb x.2 y.2))
                     Observe.xmpp_rows)
          Observe.xmpp_rows
  = true.
Proof. vm_compute. reflexivity. Qed.

(** X19: in the chat tables the region determines the server and the
    server the region: two codes have the same chat region exactly when
    they have the same chat server. *)
Theorem xmpp_region_and_server_agree (code code' region region' server server' : string) :
  Valostore.xmpp_regions !! code = Some region ->
  Valostore.xmpp_servers !! code = Some server ->
  Valostore.xmpp_regions !! code' = Some region' ->
  Valostore.xmpp_servers !! code' = Some server' ->
  region = region' <-> server = server'.
Proof.
  intros Hr Hs Hr' Hs'.
  pose proof (xmpp_row _ _ _ Hr Hs) as Hrow.
  pose proof (xmpp_row _ _ _ Hr' Hs') as Hrow'.
  pose proof xmpp_rows_checked as Hall.
  rewrite forallb_forall in Hall.
  apply list_elem_of_In in Hrow, Hrow'.
  specialize (Hall _ Hrow). rewrite forallb_forall in Hall.
  specialize (Hall _ Hrow'). simpl in Hall.
  apply Bool.eqb_prop in Hall.
  rewrite <- !String.eqb_eq. rewrite Hall. reflexivity.
Qed.

Lemma xmpp_region_and_server_agree_witness :
  "la1" = "la1" <-> "la1.chat.si.riotgames.com" = "la1.chat.si.riotgames.com".
Proof.
  apply (xmpp_region_and_server_agree "us" "la1"); reflexivity.
Defined.
